(** * MemePlayer: playback sequencing, countdown, search filter and playlists

    A shallow embedding of the two [MemePlayer] classes of the repository
    with the properties of their playback sequencer:
    - [src/MemePlayer_full.py], the Tk slideshow player with playlists, live
      search, countdown display and the loop-videos toggle (the record
      [State] and the methods after it);
    - [src/MemePlayer.py], the first version of the player (module [Basic]).

    The Tk object is a flat bag of attributes; it is modelled as a record
    whose fields carry the attribute names of the source.  Widgets are
    modelled by the part of their content the methods read back or the user
    sees (the status line, the progress bar value and maximum, the countdown
    label, the listbox selection, the picture panel).  The Tk event loop is
    modelled by the list [pending] of callbacks registered with [self.after]
    and not yet fired or cancelled.  The outside world (file system, the
    [random] module, the VLC binding) is a record [Env] of oracles.  The
    background-music player, the hotkeys and the layout of the window are
    left out. *)

From Stdlib Require Import ZArith Lia Bool List.
From Stdlib Require Import Ascii String.
From stdpp Require Import base list gmap strings.

Local Open Scope string_scope.
Local Open Scope Z_scope.

(** ** Python string and path built-ins

    The methods use [str.lower], [str.strip], [str.endswith], the [in]
    operator on strings, [os.path.basename] and [os.path.splitext].  They are
    modelled on [string] for ASCII text and POSIX paths (separator [/]). *)

Module Py.

Definition is_upper (c : ascii) : bool :=
  (65 <=? nat_of_ascii c)%nat && (nat_of_ascii c <=? 90)%nat.

Definition lower_char (c : ascii) : ascii :=
  if is_upper c then ascii_of_nat (nat_of_ascii c + 32) else c.

Fixpoint lower (s : string) : string :=
  match s with
  | EmptyString => EmptyString
  | String c t => String (lower_char c) (lower t)
  end.

(** [str.strip()] removes the ASCII white space characters at both ends:
    space, tab, line feed, vertical tab, form feed, carriage return. *)
Definition is_white (c : ascii) : bool :=
  let n := nat_of_ascii c in
  (n =? 32)%nat || ((9 <=? n)%nat && (n <=? 13)%nat).

Fixpoint lstrip (s : string) : string :=
  match s with
  | EmptyString => EmptyString
  | String c t => if is_white c then lstrip t else s
  end.

Fixpoint rstrip (s : string) : string :=
  match s with
  | EmptyString => EmptyString
  | String c t =>
      match rstrip t with
      | EmptyString => if is_white c then EmptyString else String c EmptyString
      | t' => String c t'
      end
  end.

Definition strip (s : string) : string := rstrip (lstrip s).

Fixpoint startswith (p s : string) : bool :=
  match p, s with
  | EmptyString, _ => true
  | String a p', String b s' => Ascii.eqb a b && startswith p' s'
  | String _ _, EmptyString => false
  end.

(** [q in s] on strings: [q] occurs as a contiguous substring of [s]. *)
Fixpoint contains (q s : string) : bool :=
  startswith q s ||
  match s with
  | EmptyString => false
  | String _ t => contains q t
  end.

Fixpoint endswith (suffix s : string) : bool :=
  String.eqb suffix s ||
  match s with
  | EmptyString => false
  | String _ t => endswith suffix t
  end.

(** [s.endswith(tuple)]: some member of the tuple is a suffix. *)
Definition endswith_any (suffixes : list string) (s : string) : bool :=
  existsb (fun suffix => endswith suffix s) suffixes.

Fixpoint has_char (c : ascii) (s : string) : bool :=
  match s with
  | EmptyString => false
  | String d t => Ascii.eqb c d || has_char c t
  end.

(** [os.path.basename(p)]: what follows the last [/]. *)
Fixpoint basename (p : string) : string :=
  match p with
  | EmptyString => EmptyString
  | String c t =>
      if has_char "/" t then basename t
      else if Ascii.eqb c "/" then t else p
  end.

(** The text from the last dot of [s] on, or [None] without a dot. *)
Fixpoint last_dot (s : string) : option string :=
  match s with
  | EmptyString => None
  | String c t =>
      match last_dot t with
      | Some e => Some e
      | None => if Ascii.eqb c "." then Some s else None
      end
  end.

Fixpoint all_dots (s : string) : bool :=
  match s with
  | EmptyString => true
  | String c t => Ascii.eqb c "." && all_dots t
  end.

(** [os.path.splitext(p)[1]]: the extension starts at the last dot of the
    last path component, unless only dots precede it there. *)
Definition splitext_ext (p : string) : string :=
  let b := basename p in
  match last_dot b with
  | None => EmptyString
  | Some e =>
      let stem_len := (String.length b - String.length e)%nat in
      if all_dots (String.substring 0 stem_len b) then EmptyString else e
  end.

(** [list.sort()] / [sorted] on strings: insertion sort by code point order. *)
Fixpoint insert_sorted (x : string) (l : list string) : list string :=
  match l with
  | [] => [x]
  | y :: l' => if String.leb x y then x :: l else y :: insert_sorted x l'
  end.

Definition sort (l : list string) : list string :=
  foldr insert_sorted [] l.

End Py.

(** ** Constants of the module *)

Definition IMAGE_EXTS : list string := [".png"; ".jpg"; ".jpeg"; ".webp"; ".gif"].
Definition VIDEO_EXTS : list string := [".mp4"; ".mov"; ".m4v"; ".webm"].
Definition PLAYABLE_EXTS : list string := IMAGE_EXTS ++ VIDEO_EXTS.
Definition SFX_EXTS : list string := [".wav"; ".mp3"; ".ogg"; ".flac"; ".m4a"; ".aac"].

(** The name the playlist selector shows when there is no playlist. *)
Definition NO_PLAYLIST : string := "(None)".

(** [x in tuple] for strings. *)
Definition mem (x : string) (l : list string) : bool :=
  existsb (String.eqb x) l.

(** ** The outside world

    [randrange k n] is what the [k]-th call into the [random] module returns
    when asked for [random.randrange(n)]; the player counts its calls in
    [draws].  [walk folder] lists the files below [folder] as [os.walk]
    yields them, each with the directory it stands in.  [listdir_sfx] is the
    listing of the sound-effect directory, [None] when it cannot be read.
    [media_duration] is VLC's [media.get_duration()] in milliseconds, [None]
    when the call raises. *)
Record Env := {
  randrange : nat -> Z -> Z;
  path_exists : string -> bool;
  walk : string -> list (string * string);
  listdir_sfx : option (list string);
  VLC_AVAILABLE : bool;
  WINSOUND_AVAILABLE : bool;
  vlc_starts : bool;
  media_duration : string -> option Z;
  image_opens : string -> bool;
  video_opens : string -> bool;
  playlists_writable : bool
}.

(** ** Widgets, timers and exceptions *)

(** The bound methods handed to [self.after]. *)
Inductive Callback := CbTickCountdown | CbPlayNext.

(** An entry of Tk's queue of delayed callbacks. *)
Record Timer := { tid : nat; delay_ms : Z; callback : Callback }.

(** What the right-hand panel shows. *)
Inductive Display :=
| Blank
| Picture (path : string)
| Placeholder (path : string)
| VideoSurface (path : string).

(** The VLC media player: no medium yet, or the medium it holds, stopped,
    playing or paused. *)
Inductive VlcState :=
| VlcNoMedia
| VlcStopped (path : string)
| VlcPlaying (path : string)
| VlcPaused (path : string).

(** Message boxes, most recent first in [dialogs]. *)
Inductive Dialog :=
| WarnNoFiles
| WarnNoFolder
| WarnVlcMissing
| InfoPlaylistExists
| InfoNoPlaylist
| InfoNoSelection.

(** The texts written to the status line. *)
Inductive Status :=
| StStartup
| StRunning
| StStopped
| StResumed
| StPaused
| StDisplayingImage (path : string)
| StErrorShowingImage
| StPlayingVideo (path : string)
| StErrorPlayingVideo
| StNoVideoBackend (path : string)
| StUnknownFileType (path : string)
| StSelectedFolder (folder : string) (n : nat)
| StLoadedPlaylist (name : string) (n : nat)
| StAddedToPlaylist (n : nat) (name : string)
| StPlaylistRemoved (name : string).

(** [BackendError] stands for whatever a VLC call raises. *)
Inductive Exn := RecursionError | KeyError | IndexError | BackendError.

(** ** The player object

    The attributes of [self] up to [_countdown_seconds_left] are those set in
    [__init__] (a Tk variable stands for its value).  The rest is what the
    widgets and the world hold for the object: the value and maximum of the
    progress bar, the seconds on the countdown label ([None] for "--"), the
    status line, the selected rows of the listbox (which has one row per
    entry of [filtered_files]), the names offered by the playlist selector,
    the picture panel, Tk's queue of delayed callbacks with the counter its
    identifiers come from, the state of the VLC player, the number of calls
    made into [random], the message boxes and reaction sounds produced so
    far, and the playlist document on disk.  A setter follows for each
    field. *)

Record State := {
  folder : option string;
  files : list string;
  filtered_files : list string;
  current_index : option Z;
  is_running : bool;
  is_paused : bool;
  shuffle : bool;
  interval_seconds : Z;
  loop_videos : bool;
  vlc_instance : bool;
  vlc_player : bool;
  sfx_files : list string;
  enable_image_sfx : bool;
  playlists : gmap string (list string);
  current_playlist : string;
  search_var : string;
  _after_id : option nat;
  _countdown_seconds_left : Z;
  progress_value : Z;
  progress_maximum : Z;
  timer_label : option Z;
  status_var : Status;
  listbox_selection : list Z;
  playlist_combo : list string;
  image_panel : Display;
  pending : list Timer;
  after_counter : nat;
  vlc_state : VlcState;
  draws : nat;
  dialogs : list Dialog;
  sfx_log : list string;
  playlists_file : option (gmap string (list string))
}.

Definition set_folder (v : option string) (s : State) : State :=
  {| folder := v; files := files s; filtered_files := filtered_files s;
     current_index := current_index s; is_running := is_running s; is_paused := is_paused s;
     shuffle := shuffle s; interval_seconds := interval_seconds s; loop_videos := loop_videos s;
     vlc_instance := vlc_instance s; vlc_player := vlc_player s; sfx_files := sfx_files s;
     enable_image_sfx := enable_image_sfx s; playlists := playlists s;
     current_playlist := current_playlist s; search_var := search_var s; _after_id := _after_id s;
     _countdown_seconds_left := _countdown_seconds_left s; progress_value := progress_value s;
     progress_maximum := progress_maximum s; timer_label := timer_label s;
     status_var := status_var s; listbox_selection := listbox_selection s;
     playlist_combo := playlist_combo s; image_panel := image_panel s; pending := pending s;
     after_counter := after_counter s; vlc_state := vlc_state s; draws := draws s;
     dialogs := dialogs s; sfx_log := sfx_log s; playlists_file := playlists_file s |}.

Definition set_files (v : list string) (s : State) : State :=
  {| folder := folder s; files := v; filtered_files := filtered_files s;
     current_index := current_index s; is_running := is_running s; is_paused := is_paused s;
     shuffle := shuffle s; interval_seconds := interval_seconds s; loop_videos := loop_videos s;
     vlc_instance := vlc_instance s; vlc_player := vlc_player s; sfx_files := sfx_files s;
     enable_image_sfx := enable_image_sfx s; playlists := playlists s;
     current_playlist := current_playlist s; search_var := search_var s; _after_id := _after_id s;
     _countdown_seconds_left := _countdown_seconds_left s; progress_value := progress_value s;
     progress_maximum := progress_maximum s; timer_label := timer_label s;
     status_var := status_var s; listbox_selection := listbox_selection s;
     playlist_combo := playlist_combo s; image_panel := image_panel s; pending := pending s;
     after_counter := after_counter s; vlc_state := vlc_state s; draws := draws s;
     dialogs := dialogs s; sfx_log := sfx_log s; playlists_file := playlists_file s |}.

Definition set_filtered_files (v : list string) (s : State) : State :=
  {| folder := folder s; files := files s; filtered_files := v; current_index := current_index s;
     is_running := is_running s; is_paused := is_paused s; shuffle := shuffle s;
     interval_seconds := interval_seconds s; loop_videos := loop_videos s;
     vlc_instance := vlc_instance s; vlc_player := vlc_player s; sfx_files := sfx_files s;
     enable_image_sfx := enable_image_sfx s; playlists := playlists s;
     current_playlist := current_playlist s; search_var := search_var s; _after_id := _after_id s;
     _countdown_seconds_left := _countdown_seconds_left s; progress_value := progress_value s;
     progress_maximum := progress_maximum s; timer_label := timer_label s;
     status_var := status_var s; listbox_selection := listbox_selection s;
     playlist_combo := playlist_combo s; image_panel := image_panel s; pending := pending s;
     after_counter := after_counter s; vlc_state := vlc_state s; draws := draws s;
     dialogs := dialogs s; sfx_log := sfx_log s; playlists_file := playlists_file s |}.

Definition set_current_index (v : option Z) (s : State) : State :=
  {| folder := folder s; files := files s; filtered_files := filtered_files s; current_index := v;
     is_running := is_running s; is_paused := is_paused s; shuffle := shuffle s;
     interval_seconds := interval_seconds s; loop_videos := loop_videos s;
     vlc_instance := vlc_instance s; vlc_player := vlc_player s; sfx_files := sfx_files s;
     enable_image_sfx := enable_image_sfx s; playlists := playlists s;
     current_playlist := current_playlist s; search_var := search_var s; _after_id := _after_id s;
     _countdown_seconds_left := _countdown_seconds_left s; progress_value := progress_value s;
     progress_maximum := progress_maximum s; timer_label := timer_label s;
     status_var := status_var s; listbox_selection := listbox_selection s;
     playlist_combo := playlist_combo s; image_panel := image_panel s; pending := pending s;
     after_counter := after_counter s; vlc_state := vlc_state s; draws := draws s;
     dialogs := dialogs s; sfx_log := sfx_log s; playlists_file := playlists_file s |}.

Definition set_is_running (v : bool) (s : State) : State :=
  {| folder := folder s; files := files s; filtered_files := filtered_files s;
     current_index := current_index s; is_running := v; is_paused := is_paused s;
     shuffle := shuffle s; interval_seconds := interval_seconds s; loop_videos := loop_videos s;
     vlc_instance := vlc_instance s; vlc_player := vlc_player s; sfx_files := sfx_files s;
     enable_image_sfx := enable_image_sfx s; playlists := playlists s;
     current_playlist := current_playlist s; search_var := search_var s; _after_id := _after_id s;
     _countdown_seconds_left := _countdown_seconds_left s; progress_value := progress_value s;
     progress_maximum := progress_maximum s; timer_label := timer_label s;
     status_var := status_var s; listbox_selection := listbox_selection s;
     playlist_combo := playlist_combo s; image_panel := image_panel s; pending := pending s;
     after_counter := after_counter s; vlc_state := vlc_state s; draws := draws s;
     dialogs := dialogs s; sfx_log := sfx_log s; playlists_file := playlists_file s |}.

Definition set_is_paused (v : bool) (s : State) : State :=
  {| folder := folder s; files := files s; filtered_files := filtered_files s;
     current_index := current_index s; is_running := is_running s; is_paused := v;
     shuffle := shuffle s; interval_seconds := interval_seconds s; loop_videos := loop_videos s;
     vlc_instance := vlc_instance s; vlc_player := vlc_player s; sfx_files := sfx_files s;
     enable_image_sfx := enable_image_sfx s; playlists := playlists s;
     current_playlist := current_playlist s; search_var := search_var s; _after_id := _after_id s;
     _countdown_seconds_left := _countdown_seconds_left s; progress_value := progress_value s;
     progress_maximum := progress_maximum s; timer_label := timer_label s;
     status_var := status_var s; listbox_selection := listbox_selection s;
     playlist_combo := playlist_combo s; image_panel := image_panel s; pending := pending s;
     after_counter := after_counter s; vlc_state := vlc_state s; draws := draws s;
     dialogs := dialogs s; sfx_log := sfx_log s; playlists_file := playlists_file s |}.

Definition set_shuffle (v : bool) (s : State) : State :=
  {| folder := folder s; files := files s; filtered_files := filtered_files s;
     current_index := current_index s; is_running := is_running s; is_paused := is_paused s;
     shuffle := v; interval_seconds := interval_seconds s; loop_videos := loop_videos s;
     vlc_instance := vlc_instance s; vlc_player := vlc_player s; sfx_files := sfx_files s;
     enable_image_sfx := enable_image_sfx s; playlists := playlists s;
     current_playlist := current_playlist s; search_var := search_var s; _after_id := _after_id s;
     _countdown_seconds_left := _countdown_seconds_left s; progress_value := progress_value s;
     progress_maximum := progress_maximum s; timer_label := timer_label s;
     status_var := status_var s; listbox_selection := listbox_selection s;
     playlist_combo := playlist_combo s; image_panel := image_panel s; pending := pending s;
     after_counter := after_counter s; vlc_state := vlc_state s; draws := draws s;
     dialogs := dialogs s; sfx_log := sfx_log s; playlists_file := playlists_file s |}.

Definition set_interval_seconds (v : Z) (s : State) : State :=
  {| folder := folder s; files := files s; filtered_files := filtered_files s;
     current_index := current_index s; is_running := is_running s; is_paused := is_paused s;
     shuffle := shuffle s; interval_seconds := v; loop_videos := loop_videos s;
     vlc_instance := vlc_instance s; vlc_player := vlc_player s; sfx_files := sfx_files s;
     enable_image_sfx := enable_image_sfx s; playlists := playlists s;
     current_playlist := current_playlist s; search_var := search_var s; _after_id := _after_id s;
     _countdown_seconds_left := _countdown_seconds_left s; progress_value := progress_value s;
     progress_maximum := progress_maximum s; timer_label := timer_label s;
     status_var := status_var s; listbox_selection := listbox_selection s;
     playlist_combo := playlist_combo s; image_panel := image_panel s; pending := pending s;
     after_counter := after_counter s; vlc_state := vlc_state s; draws := draws s;
     dialogs := dialogs s; sfx_log := sfx_log s; playlists_file := playlists_file s |}.

Definition set_loop_videos (v : bool) (s : State) : State :=
  {| folder := folder s; files := files s; filtered_files := filtered_files s;
     current_index := current_index s; is_running := is_running s; is_paused := is_paused s;
     shuffle := shuffle s; interval_seconds := interval_seconds s; loop_videos := v;
     vlc_instance := vlc_instance s; vlc_player := vlc_player s; sfx_files := sfx_files s;
     enable_image_sfx := enable_image_sfx s; playlists := playlists s;
     current_playlist := current_playlist s; search_var := search_var s; _after_id := _after_id s;
     _countdown_seconds_left := _countdown_seconds_left s; progress_value := progress_value s;
     progress_maximum := progress_maximum s; timer_label := timer_label s;
     status_var := status_var s; listbox_selection := listbox_selection s;
     playlist_combo := playlist_combo s; image_panel := image_panel s; pending := pending s;
     after_counter := after_counter s; vlc_state := vlc_state s; draws := draws s;
     dialogs := dialogs s; sfx_log := sfx_log s; playlists_file := playlists_file s |}.

Definition set_vlc_instance (v : bool) (s : State) : State :=
  {| folder := folder s; files := files s; filtered_files := filtered_files s;
     current_index := current_index s; is_running := is_running s; is_paused := is_paused s;
     shuffle := shuffle s; interval_seconds := interval_seconds s; loop_videos := loop_videos s;
     vlc_instance := v; vlc_player := vlc_player s; sfx_files := sfx_files s;
     enable_image_sfx := enable_image_sfx s; playlists := playlists s;
     current_playlist := current_playlist s; search_var := search_var s; _after_id := _after_id s;
     _countdown_seconds_left := _countdown_seconds_left s; progress_value := progress_value s;
     progress_maximum := progress_maximum s; timer_label := timer_label s;
     status_var := status_var s; listbox_selection := listbox_selection s;
     playlist_combo := playlist_combo s; image_panel := image_panel s; pending := pending s;
     after_counter := after_counter s; vlc_state := vlc_state s; draws := draws s;
     dialogs := dialogs s; sfx_log := sfx_log s; playlists_file := playlists_file s |}.

Definition set_vlc_player (v : bool) (s : State) : State :=
  {| folder := folder s; files := files s; filtered_files := filtered_files s;
     current_index := current_index s; is_running := is_running s; is_paused := is_paused s;
     shuffle := shuffle s; interval_seconds := interval_seconds s; loop_videos := loop_videos s;
     vlc_instance := vlc_instance s; vlc_player := v; sfx_files := sfx_files s;
     enable_image_sfx := enable_image_sfx s; playlists := playlists s;
     current_playlist := current_playlist s; search_var := search_var s; _after_id := _after_id s;
     _countdown_seconds_left := _countdown_seconds_left s; progress_value := progress_value s;
     progress_maximum := progress_maximum s; timer_label := timer_label s;
     status_var := status_var s; listbox_selection := listbox_selection s;
     playlist_combo := playlist_combo s; image_panel := image_panel s; pending := pending s;
     after_counter := after_counter s; vlc_state := vlc_state s; draws := draws s;
     dialogs := dialogs s; sfx_log := sfx_log s; playlists_file := playlists_file s |}.

Definition set_sfx_files (v : list string) (s : State) : State :=
  {| folder := folder s; files := files s; filtered_files := filtered_files s;
     current_index := current_index s; is_running := is_running s; is_paused := is_paused s;
     shuffle := shuffle s; interval_seconds := interval_seconds s; loop_videos := loop_videos s;
     vlc_instance := vlc_instance s; vlc_player := vlc_player s; sfx_files := v;
     enable_image_sfx := enable_image_sfx s; playlists := playlists s;
     current_playlist := current_playlist s; search_var := search_var s; _after_id := _after_id s;
     _countdown_seconds_left := _countdown_seconds_left s; progress_value := progress_value s;
     progress_maximum := progress_maximum s; timer_label := timer_label s;
     status_var := status_var s; listbox_selection := listbox_selection s;
     playlist_combo := playlist_combo s; image_panel := image_panel s; pending := pending s;
     after_counter := after_counter s; vlc_state := vlc_state s; draws := draws s;
     dialogs := dialogs s; sfx_log := sfx_log s; playlists_file := playlists_file s |}.

Definition set_enable_image_sfx (v : bool) (s : State) : State :=
  {| folder := folder s; files := files s; filtered_files := filtered_files s;
     current_index := current_index s; is_running := is_running s; is_paused := is_paused s;
     shuffle := shuffle s; interval_seconds := interval_seconds s; loop_videos := loop_videos s;
     vlc_instance := vlc_instance s; vlc_player := vlc_player s; sfx_files := sfx_files s;
     enable_image_sfx := v; playlists := playlists s; current_playlist := current_playlist s;
     search_var := search_var s; _after_id := _after_id s;
     _countdown_seconds_left := _countdown_seconds_left s; progress_value := progress_value s;
     progress_maximum := progress_maximum s; timer_label := timer_label s;
     status_var := status_var s; listbox_selection := listbox_selection s;
     playlist_combo := playlist_combo s; image_panel := image_panel s; pending := pending s;
     after_counter := after_counter s; vlc_state := vlc_state s; draws := draws s;
     dialogs := dialogs s; sfx_log := sfx_log s; playlists_file := playlists_file s |}.

Definition set_playlists (v : gmap string (list string)) (s : State) : State :=
  {| folder := folder s; files := files s; filtered_files := filtered_files s;
     current_index := current_index s; is_running := is_running s; is_paused := is_paused s;
     shuffle := shuffle s; interval_seconds := interval_seconds s; loop_videos := loop_videos s;
     vlc_instance := vlc_instance s; vlc_player := vlc_player s; sfx_files := sfx_files s;
     enable_image_sfx := enable_image_sfx s; playlists := v;
     current_playlist := current_playlist s; search_var := search_var s; _after_id := _after_id s;
     _countdown_seconds_left := _countdown_seconds_left s; progress_value := progress_value s;
     progress_maximum := progress_maximum s; timer_label := timer_label s;
     status_var := status_var s; listbox_selection := listbox_selection s;
     playlist_combo := playlist_combo s; image_panel := image_panel s; pending := pending s;
     after_counter := after_counter s; vlc_state := vlc_state s; draws := draws s;
     dialogs := dialogs s; sfx_log := sfx_log s; playlists_file := playlists_file s |}.

Definition set_current_playlist (v : string) (s : State) : State :=
  {| folder := folder s; files := files s; filtered_files := filtered_files s;
     current_index := current_index s; is_running := is_running s; is_paused := is_paused s;
     shuffle := shuffle s; interval_seconds := interval_seconds s; loop_videos := loop_videos s;
     vlc_instance := vlc_instance s; vlc_player := vlc_player s; sfx_files := sfx_files s;
     enable_image_sfx := enable_image_sfx s; playlists := playlists s; current_playlist := v;
     search_var := search_var s; _after_id := _after_id s;
     _countdown_seconds_left := _countdown_seconds_left s; progress_value := progress_value s;
     progress_maximum := progress_maximum s; timer_label := timer_label s;
     status_var := status_var s; listbox_selection := listbox_selection s;
     playlist_combo := playlist_combo s; image_panel := image_panel s; pending := pending s;
     after_counter := after_counter s; vlc_state := vlc_state s; draws := draws s;
     dialogs := dialogs s; sfx_log := sfx_log s; playlists_file := playlists_file s |}.

Definition set_search_var (v : string) (s : State) : State :=
  {| folder := folder s; files := files s; filtered_files := filtered_files s;
     current_index := current_index s; is_running := is_running s; is_paused := is_paused s;
     shuffle := shuffle s; interval_seconds := interval_seconds s; loop_videos := loop_videos s;
     vlc_instance := vlc_instance s; vlc_player := vlc_player s; sfx_files := sfx_files s;
     enable_image_sfx := enable_image_sfx s; playlists := playlists s;
     current_playlist := current_playlist s; search_var := v; _after_id := _after_id s;
     _countdown_seconds_left := _countdown_seconds_left s; progress_value := progress_value s;
     progress_maximum := progress_maximum s; timer_label := timer_label s;
     status_var := status_var s; listbox_selection := listbox_selection s;
     playlist_combo := playlist_combo s; image_panel := image_panel s; pending := pending s;
     after_counter := after_counter s; vlc_state := vlc_state s; draws := draws s;
     dialogs := dialogs s; sfx_log := sfx_log s; playlists_file := playlists_file s |}.

Definition set__after_id (v : option nat) (s : State) : State :=
  {| folder := folder s; files := files s; filtered_files := filtered_files s;
     current_index := current_index s; is_running := is_running s; is_paused := is_paused s;
     shuffle := shuffle s; interval_seconds := interval_seconds s; loop_videos := loop_videos s;
     vlc_instance := vlc_instance s; vlc_player := vlc_player s; sfx_files := sfx_files s;
     enable_image_sfx := enable_image_sfx s; playlists := playlists s;
     current_playlist := current_playlist s; search_var := search_var s; _after_id := v;
     _countdown_seconds_left := _countdown_seconds_left s; progress_value := progress_value s;
     progress_maximum := progress_maximum s; timer_label := timer_label s;
     status_var := status_var s; listbox_selection := listbox_selection s;
     playlist_combo := playlist_combo s; image_panel := image_panel s; pending := pending s;
     after_counter := after_counter s; vlc_state := vlc_state s; draws := draws s;
     dialogs := dialogs s; sfx_log := sfx_log s; playlists_file := playlists_file s |}.

Definition set__countdown_seconds_left (v : Z) (s : State) : State :=
  {| folder := folder s; files := files s; filtered_files := filtered_files s;
     current_index := current_index s; is_running := is_running s; is_paused := is_paused s;
     shuffle := shuffle s; interval_seconds := interval_seconds s; loop_videos := loop_videos s;
     vlc_instance := vlc_instance s; vlc_player := vlc_player s; sfx_files := sfx_files s;
     enable_image_sfx := enable_image_sfx s; playlists := playlists s;
     current_playlist := current_playlist s; search_var := search_var s; _after_id := _after_id s;
     _countdown_seconds_left := v; progress_value := progress_value s;
     progress_maximum := progress_maximum s; timer_label := timer_label s;
     status_var := status_var s; listbox_selection := listbox_selection s;
     playlist_combo := playlist_combo s; image_panel := image_panel s; pending := pending s;
     after_counter := after_counter s; vlc_state := vlc_state s; draws := draws s;
     dialogs := dialogs s; sfx_log := sfx_log s; playlists_file := playlists_file s |}.

Definition set_progress_value (v : Z) (s : State) : State :=
  {| folder := folder s; files := files s; filtered_files := filtered_files s;
     current_index := current_index s; is_running := is_running s; is_paused := is_paused s;
     shuffle := shuffle s; interval_seconds := interval_seconds s; loop_videos := loop_videos s;
     vlc_instance := vlc_instance s; vlc_player := vlc_player s; sfx_files := sfx_files s;
     enable_image_sfx := enable_image_sfx s; playlists := playlists s;
     current_playlist := current_playlist s; search_var := search_var s; _after_id := _after_id s;
     _countdown_seconds_left := _countdown_seconds_left s; progress_value := v;
     progress_maximum := progress_maximum s; timer_label := timer_label s;
     status_var := status_var s; listbox_selection := listbox_selection s;
     playlist_combo := playlist_combo s; image_panel := image_panel s; pending := pending s;
     after_counter := after_counter s; vlc_state := vlc_state s; draws := draws s;
     dialogs := dialogs s; sfx_log := sfx_log s; playlists_file := playlists_file s |}.

Definition set_progress_maximum (v : Z) (s : State) : State :=
  {| folder := folder s; files := files s; filtered_files := filtered_files s;
     current_index := current_index s; is_running := is_running s; is_paused := is_paused s;
     shuffle := shuffle s; interval_seconds := interval_seconds s; loop_videos := loop_videos s;
     vlc_instance := vlc_instance s; vlc_player := vlc_player s; sfx_files := sfx_files s;
     enable_image_sfx := enable_image_sfx s; playlists := playlists s;
     current_playlist := current_playlist s; search_var := search_var s; _after_id := _after_id s;
     _countdown_seconds_left := _countdown_seconds_left s; progress_value := progress_value s;
     progress_maximum := v; timer_label := timer_label s; status_var := status_var s;
     listbox_selection := listbox_selection s; playlist_combo := playlist_combo s;
     image_panel := image_panel s; pending := pending s; after_counter := after_counter s;
     vlc_state := vlc_state s; draws := draws s; dialogs := dialogs s; sfx_log := sfx_log s;
     playlists_file := playlists_file s |}.

Definition set_timer_label (v : option Z) (s : State) : State :=
  {| folder := folder s; files := files s; filtered_files := filtered_files s;
     current_index := current_index s; is_running := is_running s; is_paused := is_paused s;
     shuffle := shuffle s; interval_seconds := interval_seconds s; loop_videos := loop_videos s;
     vlc_instance := vlc_instance s; vlc_player := vlc_player s; sfx_files := sfx_files s;
     enable_image_sfx := enable_image_sfx s; playlists := playlists s;
     current_playlist := current_playlist s; search_var := search_var s; _after_id := _after_id s;
     _countdown_seconds_left := _countdown_seconds_left s; progress_value := progress_value s;
     progress_maximum := progress_maximum s; timer_label := v; status_var := status_var s;
     listbox_selection := listbox_selection s; playlist_combo := playlist_combo s;
     image_panel := image_panel s; pending := pending s; after_counter := after_counter s;
     vlc_state := vlc_state s; draws := draws s; dialogs := dialogs s; sfx_log := sfx_log s;
     playlists_file := playlists_file s |}.

Definition set_status_var (v : Status) (s : State) : State :=
  {| folder := folder s; files := files s; filtered_files := filtered_files s;
     current_index := current_index s; is_running := is_running s; is_paused := is_paused s;
     shuffle := shuffle s; interval_seconds := interval_seconds s; loop_videos := loop_videos s;
     vlc_instance := vlc_instance s; vlc_player := vlc_player s; sfx_files := sfx_files s;
     enable_image_sfx := enable_image_sfx s; playlists := playlists s;
     current_playlist := current_playlist s; search_var := search_var s; _after_id := _after_id s;
     _countdown_seconds_left := _countdown_seconds_left s; progress_value := progress_value s;
     progress_maximum := progress_maximum s; timer_label := timer_label s; status_var := v;
     listbox_selection := listbox_selection s; playlist_combo := playlist_combo s;
     image_panel := image_panel s; pending := pending s; after_counter := after_counter s;
     vlc_state := vlc_state s; draws := draws s; dialogs := dialogs s; sfx_log := sfx_log s;
     playlists_file := playlists_file s |}.

Definition set_listbox_selection (v : list Z) (s : State) : State :=
  {| folder := folder s; files := files s; filtered_files := filtered_files s;
     current_index := current_index s; is_running := is_running s; is_paused := is_paused s;
     shuffle := shuffle s; interval_seconds := interval_seconds s; loop_videos := loop_videos s;
     vlc_instance := vlc_instance s; vlc_player := vlc_player s; sfx_files := sfx_files s;
     enable_image_sfx := enable_image_sfx s; playlists := playlists s;
     current_playlist := current_playlist s; search_var := search_var s; _after_id := _after_id s;
     _countdown_seconds_left := _countdown_seconds_left s; progress_value := progress_value s;
     progress_maximum := progress_maximum s; timer_label := timer_label s;
     status_var := status_var s; listbox_selection := v; playlist_combo := playlist_combo s;
     image_panel := image_panel s; pending := pending s; after_counter := after_counter s;
     vlc_state := vlc_state s; draws := draws s; dialogs := dialogs s; sfx_log := sfx_log s;
     playlists_file := playlists_file s |}.

Definition set_playlist_combo (v : list string) (s : State) : State :=
  {| folder := folder s; files := files s; filtered_files := filtered_files s;
     current_index := current_index s; is_running := is_running s; is_paused := is_paused s;
     shuffle := shuffle s; interval_seconds := interval_seconds s; loop_videos := loop_videos s;
     vlc_instance := vlc_instance s; vlc_player := vlc_player s; sfx_files := sfx_files s;
     enable_image_sfx := enable_image_sfx s; playlists := playlists s;
     current_playlist := current_playlist s; search_var := search_var s; _after_id := _after_id s;
     _countdown_seconds_left := _countdown_seconds_left s; progress_value := progress_value s;
     progress_maximum := progress_maximum s; timer_label := timer_label s;
     status_var := status_var s; listbox_selection := listbox_selection s; playlist_combo := v;
     image_panel := image_panel s; pending := pending s; after_counter := after_counter s;
     vlc_state := vlc_state s; draws := draws s; dialogs := dialogs s; sfx_log := sfx_log s;
     playlists_file := playlists_file s |}.

Definition set_image_panel (v : Display) (s : State) : State :=
  {| folder := folder s; files := files s; filtered_files := filtered_files s;
     current_index := current_index s; is_running := is_running s; is_paused := is_paused s;
     shuffle := shuffle s; interval_seconds := interval_seconds s; loop_videos := loop_videos s;
     vlc_instance := vlc_instance s; vlc_player := vlc_player s; sfx_files := sfx_files s;
     enable_image_sfx := enable_image_sfx s; playlists := playlists s;
     current_playlist := current_playlist s; search_var := search_var s; _after_id := _after_id s;
     _countdown_seconds_left := _countdown_seconds_left s; progress_value := progress_value s;
     progress_maximum := progress_maximum s; timer_label := timer_label s;
     status_var := status_var s; listbox_selection := listbox_selection s;
     playlist_combo := playlist_combo s; image_panel := v; pending := pending s;
     after_counter := after_counter s; vlc_state := vlc_state s; draws := draws s;
     dialogs := dialogs s; sfx_log := sfx_log s; playlists_file := playlists_file s |}.

Definition set_pending (v : list Timer) (s : State) : State :=
  {| folder := folder s; files := files s; filtered_files := filtered_files s;
     current_index := current_index s; is_running := is_running s; is_paused := is_paused s;
     shuffle := shuffle s; interval_seconds := interval_seconds s; loop_videos := loop_videos s;
     vlc_instance := vlc_instance s; vlc_player := vlc_player s; sfx_files := sfx_files s;
     enable_image_sfx := enable_image_sfx s; playlists := playlists s;
     current_playlist := current_playlist s; search_var := search_var s; _after_id := _after_id s;
     _countdown_seconds_left := _countdown_seconds_left s; progress_value := progress_value s;
     progress_maximum := progress_maximum s; timer_label := timer_label s;
     status_var := status_var s; listbox_selection := listbox_selection s;
     playlist_combo := playlist_combo s; image_panel := image_panel s; pending := v;
     after_counter := after_counter s; vlc_state := vlc_state s; draws := draws s;
     dialogs := dialogs s; sfx_log := sfx_log s; playlists_file := playlists_file s |}.

Definition set_after_counter (v : nat) (s : State) : State :=
  {| folder := folder s; files := files s; filtered_files := filtered_files s;
     current_index := current_index s; is_running := is_running s; is_paused := is_paused s;
     shuffle := shuffle s; interval_seconds := interval_seconds s; loop_videos := loop_videos s;
     vlc_instance := vlc_instance s; vlc_player := vlc_player s; sfx_files := sfx_files s;
     enable_image_sfx := enable_image_sfx s; playlists := playlists s;
     current_playlist := current_playlist s; search_var := search_var s; _after_id := _after_id s;
     _countdown_seconds_left := _countdown_seconds_left s; progress_value := progress_value s;
     progress_maximum := progress_maximum s; timer_label := timer_label s;
     status_var := status_var s; listbox_selection := listbox_selection s;
     playlist_combo := playlist_combo s; image_panel := image_panel s; pending := pending s;
     after_counter := v; vlc_state := vlc_state s; draws := draws s; dialogs := dialogs s;
     sfx_log := sfx_log s; playlists_file := playlists_file s |}.

Definition set_vlc_state (v : VlcState) (s : State) : State :=
  {| folder := folder s; files := files s; filtered_files := filtered_files s;
     current_index := current_index s; is_running := is_running s; is_paused := is_paused s;
     shuffle := shuffle s; interval_seconds := interval_seconds s; loop_videos := loop_videos s;
     vlc_instance := vlc_instance s; vlc_player := vlc_player s; sfx_files := sfx_files s;
     enable_image_sfx := enable_image_sfx s; playlists := playlists s;
     current_playlist := current_playlist s; search_var := search_var s; _after_id := _after_id s;
     _countdown_seconds_left := _countdown_seconds_left s; progress_value := progress_value s;
     progress_maximum := progress_maximum s; timer_label := timer_label s;
     status_var := status_var s; listbox_selection := listbox_selection s;
     playlist_combo := playlist_combo s; image_panel := image_panel s; pending := pending s;
     after_counter := after_counter s; vlc_state := v; draws := draws s; dialogs := dialogs s;
     sfx_log := sfx_log s; playlists_file := playlists_file s |}.

Definition set_draws (v : nat) (s : State) : State :=
  {| folder := folder s; files := files s; filtered_files := filtered_files s;
     current_index := current_index s; is_running := is_running s; is_paused := is_paused s;
     shuffle := shuffle s; interval_seconds := interval_seconds s; loop_videos := loop_videos s;
     vlc_instance := vlc_instance s; vlc_player := vlc_player s; sfx_files := sfx_files s;
     enable_image_sfx := enable_image_sfx s; playlists := playlists s;
     current_playlist := current_playlist s; search_var := search_var s; _after_id := _after_id s;
     _countdown_seconds_left := _countdown_seconds_left s; progress_value := progress_value s;
     progress_maximum := progress_maximum s; timer_label := timer_label s;
     status_var := status_var s; listbox_selection := listbox_selection s;
     playlist_combo := playlist_combo s; image_panel := image_panel s; pending := pending s;
     after_counter := after_counter s; vlc_state := vlc_state s; draws := v; dialogs := dialogs s;
     sfx_log := sfx_log s; playlists_file := playlists_file s |}.

Definition set_dialogs (v : list Dialog) (s : State) : State :=
  {| folder := folder s; files := files s; filtered_files := filtered_files s;
     current_index := current_index s; is_running := is_running s; is_paused := is_paused s;
     shuffle := shuffle s; interval_seconds := interval_seconds s; loop_videos := loop_videos s;
     vlc_instance := vlc_instance s; vlc_player := vlc_player s; sfx_files := sfx_files s;
     enable_image_sfx := enable_image_sfx s; playlists := playlists s;
     current_playlist := current_playlist s; search_var := search_var s; _after_id := _after_id s;
     _countdown_seconds_left := _countdown_seconds_left s; progress_value := progress_value s;
     progress_maximum := progress_maximum s; timer_label := timer_label s;
     status_var := status_var s; listbox_selection := listbox_selection s;
     playlist_combo := playlist_combo s; image_panel := image_panel s; pending := pending s;
     after_counter := after_counter s; vlc_state := vlc_state s; draws := draws s; dialogs := v;
     sfx_log := sfx_log s; playlists_file := playlists_file s |}.

Definition set_sfx_log (v : list string) (s : State) : State :=
  {| folder := folder s; files := files s; filtered_files := filtered_files s;
     current_index := current_index s; is_running := is_running s; is_paused := is_paused s;
     shuffle := shuffle s; interval_seconds := interval_seconds s; loop_videos := loop_videos s;
     vlc_instance := vlc_instance s; vlc_player := vlc_player s; sfx_files := sfx_files s;
     enable_image_sfx := enable_image_sfx s; playlists := playlists s;
     current_playlist := current_playlist s; search_var := search_var s; _after_id := _after_id s;
     _countdown_seconds_left := _countdown_seconds_left s; progress_value := progress_value s;
     progress_maximum := progress_maximum s; timer_label := timer_label s;
     status_var := status_var s; listbox_selection := listbox_selection s;
     playlist_combo := playlist_combo s; image_panel := image_panel s; pending := pending s;
     after_counter := after_counter s; vlc_state := vlc_state s; draws := draws s;
     dialogs := dialogs s; sfx_log := v; playlists_file := playlists_file s |}.

Definition set_playlists_file (v : option (gmap string (list string))) (s : State) : State :=
  {| folder := folder s; files := files s; filtered_files := filtered_files s;
     current_index := current_index s; is_running := is_running s; is_paused := is_paused s;
     shuffle := shuffle s; interval_seconds := interval_seconds s; loop_videos := loop_videos s;
     vlc_instance := vlc_instance s; vlc_player := vlc_player s; sfx_files := sfx_files s;
     enable_image_sfx := enable_image_sfx s; playlists := playlists s;
     current_playlist := current_playlist s; search_var := search_var s; _after_id := _after_id s;
     _countdown_seconds_left := _countdown_seconds_left s; progress_value := progress_value s;
     progress_maximum := progress_maximum s; timer_label := timer_label s;
     status_var := status_var s; listbox_selection := listbox_selection s;
     playlist_combo := playlist_combo s; image_panel := image_panel s; pending := pending s;
     after_counter := after_counter s; vlc_state := vlc_state s; draws := draws s;
     dialogs := dialogs s; sfx_log := sfx_log s; playlists_file := v |}.

(** The result of a method call: it returns, or an exception leaves it.  The
    attributes are mutated in place, so both carry the object as it is then. *)
Inductive Outcome :=
| Returned (s : State)
| Raised (e : Exn) (s : State).

Definition state_of (o : Outcome) : State :=
  match o with
  | Returned s => s
  | Raised _ s => s
  end.

Notation "s |> f" := (f s) (at level 45, left associativity, only parsing).

(** Python truthiness of [self.folder] ([None] or a string). *)
Definition truthy (o : option string) : bool :=
  match o with
  | Some (String _ _) => true
  | _ => false
  end.

Definition is_empty {A} (l : list A) : bool :=
  match l with
  | [] => true
  | _ => false
  end.

Definition len {A} (l : list A) : Z := Z.of_nat (length l).

(** *** Tk's delayed callbacks *)

(** [self.after(ms, callback)]: the new timer gets a fresh identifier. *)
Definition after (ms : Z) (cb : Callback) (s : State) : State :=
  s |> set_pending (pending s ++ [{| tid := after_counter s; delay_ms := ms; callback := cb |}])%list
    |> set_after_counter (S (after_counter s)).

(** [self.after_cancel(id)]: cancelling an identifier that is not pending
    does nothing. *)
Definition after_cancel (id : nat) (s : State) : State :=
  s |> set_pending (filter (fun t => tid t ≠ id) (pending s)).

(** *** [_cancel_timers] *)
Definition _cancel_timers (s : State) : State :=
  match _after_id s with
  | Some id =>
      s |> after_cancel id
        |> set__after_id None
        |> set__countdown_seconds_left 0
        |> set_progress_value 0
        |> set_timer_label None
  | None => s
  end.

(** *** VLC player calls *)

(** [vlc_player.pause()] toggles between playing and paused. *)
Definition vlc_pause (v : VlcState) : VlcState :=
  match v with
  | VlcPlaying p => VlcPaused p
  | VlcPaused p => VlcPlaying p
  | _ => v
  end.

(** [vlc_player.play()] without a new medium plays the one it holds. *)
Definition vlc_play (v : VlcState) : VlcState :=
  match v with
  | VlcNoMedia => VlcNoMedia
  | VlcStopped p | VlcPlaying p | VlcPaused p => VlcPlaying p
  end.

(** [vlc_player.stop()]. *)
Definition vlc_stop (v : VlcState) : VlcState :=
  match v with
  | VlcNoMedia => VlcNoMedia
  | VlcStopped p | VlcPlaying p | VlcPaused p => VlcStopped p
  end.

(** [_stop_video]; [_video_stop_timer] is never set in this class. *)
Definition _stop_video (s : State) : State :=
  if vlc_player s then s |> set_vlc_state (vlc_stop (vlc_state s)) else s.

Section Player.

Variable env : Env.

(** *** Display helpers *)

(** When the picture cannot be opened the [except] branch only writes the
    status line. *)
Definition _show_image (path : string) (s : State) : State :=
  if image_opens env path
  then s |> set_image_panel (Picture path) |> set_status_var (StDisplayingImage path)
  else s |> set_status_var StErrorShowingImage.

Definition _show_placeholder_video (path : string) (s : State) : State :=
  s |> set_image_panel (Placeholder path) |> set_status_var (StNoVideoBackend path).

(** The video panel is raised; the VLC calls sit in a [try] whose [except]
    branch writes the status line. *)
Definition _play_video (path : string) (s : State) : State :=
  let s := s |> set_image_panel (VideoSurface path) in
  if negb (vlc_player s) then s
  else if video_opens env path
  then s |> set_vlc_state (VlcPlaying path) |> set_status_var (StPlayingVideo path)
  else s |> set_status_var StErrorPlayingVideo.

(** *** Reaction sounds: [_pick_random_sfx] and [play_image_sfx]

    [random.choice] is one more call into [random].  The sound goes through
    VLC when there is or can be a VLC instance (which stays in
    [vlc_instance]), else through [winsound] for a [.wav] file. *)

Definition play_image_sfx (s : State) : State :=
  if negb (enable_image_sfx s) then s
  else if is_empty (sfx_files s) then s
  else
    let k := randrange env (draws s) (len (sfx_files s)) in
    let s := s |> set_draws (S (draws s)) in
    match sfx_files s !! Z.to_nat k with
    | None => s
    | Some sfx_path =>
        if negb (path_exists env sfx_path) then s
        else if VLC_AVAILABLE env && (vlc_instance s || vlc_starts env)
        then s |> set_vlc_instance true |> set_sfx_log (sfx_path :: sfx_log s)
        else if WINSOUND_AVAILABLE env && Py.endswith ".wav" (Py.lower sfx_path)
        then s |> set_sfx_log (sfx_path :: sfx_log s)
        else s
    end.

(** *** Countdown: [_tick_countdown], [_start_countdown],
    [_start_countdown_for_video_loop]

    [_tick_countdown] calls [self.play_next()] when the countdown is over;
    [play_next] is the parameter [next] here and the knot is tied below. *)

Definition _tick_countdown (next : State -> Outcome) (s : State) : Outcome :=
  if negb (is_running s) || is_paused s then Returned s
  else if _countdown_seconds_left s <=? 0 then
    next (s |> set_timer_label (Some 0) |> set_progress_value (progress_maximum s))
  else
    let s := s |> set_timer_label (Some (_countdown_seconds_left s))
               |> set_progress_value (progress_value s + 1)
               |> set__countdown_seconds_left (_countdown_seconds_left s - 1) in
    Returned (s |> set__after_id (Some (after_counter s)) |> after 1000 CbTickCountdown).

Definition _start_countdown (next : State -> Outcome) (seconds : Z) (s : State) : Outcome :=
  _tick_countdown next
    (s |> _cancel_timers
       |> set__countdown_seconds_left seconds
       |> set_progress_maximum seconds
       |> set_progress_value 0).

(** The clip length in whole seconds, or [interval_seconds] when VLC gives
    none, zero or a negative one. *)
Definition video_loop_seconds (path : string) (s : State) : Z :=
  let length_s :=
    match media_duration env path with
    | Some length_ms => if 0 <? length_ms then Some (length_ms / 1000) else None
    | None => None
    end in
  match length_s with
  | Some n => if (n =? 0) || (n <=? 0) then interval_seconds s else n
  | None => interval_seconds s
  end.

Definition _start_countdown_for_video_loop (next : State -> Outcome) (path : string)
    (s : State) : Outcome :=
  let s := _cancel_timers s in
  let length_s := video_loop_seconds path s in
  _tick_countdown next
    (s |> set__countdown_seconds_left length_s
       |> set_progress_maximum length_s
       |> set_progress_value 0).

(** *** [_play_current] *)

(** The statement that ends three of its branches:
    [if self.is_running and not self.is_paused: self._start_countdown(...)]. *)
Definition schedule_next (next : State -> Outcome) (s : State) : Outcome :=
  if is_running s && negb (is_paused s)
  then _start_countdown next (interval_seconds s) s
  else Returned s.

Definition _play_current (next : State -> Outcome) (s : State) : Outcome :=
  let s := _cancel_timers s in
  match current_index s with
  | None => Returned s
  | Some idx =>
      if (idx <? 0) || (len (filtered_files s) <=? idx) then Returned s
      else
        match filtered_files s !! Z.to_nat idx with
        | None => Raised IndexError s
        | Some path =>
            let s := s |> set_listbox_selection [idx] in
            let ext := Py.lower (Py.splitext_ext path) in
            if mem ext IMAGE_EXTS then
              s |> _stop_video |> _show_image path |> play_image_sfx |> schedule_next next
            else if mem ext VIDEO_EXTS then
              if negb (VLC_AVAILABLE env) || negb (vlc_player s) then
                s |> _stop_video |> _show_placeholder_video path |> schedule_next next
              else
                let s := _play_video path s in
                if loop_videos s
                then _start_countdown_for_video_loop next path s
                else schedule_next next s
            else Returned (s |> set_status_var (StUnknownFileType path))
        end
  end.

(** *** [play_next] and [play_prev]

    [play_next] reaches itself through [_play_current], [_start_countdown] and
    [_tick_countdown] when the countdown it arms is already over.  [limit]
    bounds the depth of that recursion the way the interpreter's recursion
    limit does: beyond it the call raises [RecursionError].  [pick_random],
    [step_forward] and [step_backward] are the three assignments to
    [current_index]. *)

Definition pick_random (s : State) : State :=
  s |> set_current_index (Some (randrange env (draws s) (len (filtered_files s))))
    |> set_draws (S (draws s)).

Definition step_forward (s : State) : State :=
  match current_index s with
  | None => s |> set_current_index (Some 0)
  | Some i => s |> set_current_index (Some ((i + 1) mod len (filtered_files s)))
  end.

Definition step_backward (s : State) : State :=
  match current_index s with
  | None => s |> set_current_index (Some 0)
  | Some i => s |> set_current_index (Some ((i - 1) mod len (filtered_files s)))
  end.

Fixpoint play_next (limit : nat) (s : State) : Outcome :=
  match limit with
  | O => Raised RecursionError s
  | S limit' =>
      if is_empty (filtered_files s) then Returned s
      else
        (if shuffle s then pick_random s else step_forward s)
        |> _play_current (play_next limit')
  end.

Definition play_prev (limit : nat) (s : State) : Outcome :=
  match limit with
  | O => Raised RecursionError s
  | S limit' =>
      if is_empty (filtered_files s) then Returned s
      else
        (if shuffle s then pick_random s else step_backward s)
        |> _play_current (play_next limit')
  end.

(** *** [start], [stop], [toggle_pause], [_on_list_double] *)

Definition has_video (fs : list string) : bool :=
  existsb (fun p => Py.endswith_any VIDEO_EXTS (Py.lower p)) fs.

(** The [try] block of [start] that creates the VLC instance and player;
    when it raises both stay [None]. *)
Definition init_vlc (s : State) : State :=
  if VLC_AVAILABLE env && negb (vlc_instance s)
  then s |> set_vlc_instance (vlc_starts env) |> set_vlc_player (vlc_starts env)
  else s.

Definition start (limit : nat) (s : State) : Outcome :=
  if is_empty (filtered_files s) then Returned (s |> set_dialogs (WarnNoFiles :: dialogs s))
  else
    let s := if negb (VLC_AVAILABLE env) && has_video (filtered_files s)
             then s |> set_dialogs (WarnVlcMissing :: dialogs s) else s in
    let s := s |> init_vlc
               |> set_is_running true
               |> set_is_paused false
               |> set_status_var StRunning in
    let s := match current_index s with
             | None => s |> set_current_index (Some 0)
             | Some _ => s
             end in
    _play_current (play_next limit) s.

Definition stop (s : State) : State :=
  s |> set_is_running false
    |> set_is_paused false
    |> _cancel_timers
    |> _stop_video
    |> set_image_panel Blank
    |> set_status_var StStopped.

Definition toggle_pause (s : State) : State :=
  if negb (is_running s) then s
  else if is_paused s then
    let s := s |> set_is_paused false in
    let s := match _after_id s with
             | None => s |> set__after_id (Some (after_counter s))
                         |> after (interval_seconds s * 1000) CbPlayNext
             | Some _ => s
             end in
    let s := if vlc_player s && VLC_AVAILABLE env
             then s |> set_vlc_state (vlc_play (vlc_state s)) else s in
    s |> set_status_var StResumed
  else
    let s := s |> set_is_paused true |> _cancel_timers in
    let s := if vlc_player s && VLC_AVAILABLE env
             then s |> set_vlc_state (vlc_pause (vlc_state s)) else s in
    s |> set_status_var StPaused.

Definition _on_list_double (limit : nat) (s : State) : Outcome :=
  match listbox_selection s with
  | [] => Returned s
  | i :: _ => s |> set_current_index (Some i) |> _play_current (play_next limit)
  end.

(** *** Search: [_apply_search_filter] and [_refresh_listbox] *)

(** The list comprehension of [_apply_search_filter], for the text of the
    search box and the catalog. *)
Definition search_filter (text : string) (fs : list string) : list string :=
  let q := Py.lower (Py.strip text) in
  match q with
  | EmptyString => fs
  | _ => List.filter (fun f => Py.contains q (Py.lower (Py.basename f))) fs
  end.

(** The listbox shows one row per entry of [filtered_files]; emptying it
    drops the selection. *)
Definition _refresh_listbox (s : State) : State :=
  s |> set_listbox_selection [].

Definition _apply_search_filter (s : State) : State :=
  s |> set_filtered_files (search_filter (search_var s) (files s))
    |> _refresh_listbox.

(** *** Folder loading: [_load_files] and [select_folder] *)

Definition scan (folder : string) : list string :=
  Py.sort
    (map (fun '(root, fn) => root ++ "/" ++ fn)
       (List.filter (fun '(root, fn) => Py.endswith_any PLAYABLE_EXTS (Py.lower fn))
          (walk env folder))).

Definition _load_files (s : State) : State :=
  let s := s |> set_files [] in
  match folder s with
  | Some (String c t) =>
      s |> set_files (scan (String c t))
        |> _apply_search_filter
        |> set_current_index None
  | _ => s
  end.

(** [choice] is what the directory dialog returned, empty when dismissed. *)
Definition select_folder (choice : string) (s : State) : State :=
  match choice with
  | EmptyString => s
  | _ =>
      let s := s |> set_folder (Some choice) |> _load_files in
      s |> set_status_var (StSelectedFolder choice (length (files s)))
  end.

(** *** Playlists *)

Definition playlist_names (m : gmap string (list string)) : list string :=
  Py.sort (map fst (map_to_list m)).

Definition _refresh_playlist_combo (s : State) : State :=
  let names := playlist_names (playlists s) in
  let '(names, s) :=
    match names with
    | [] => ([NO_PLAYLIST], s |> set_current_playlist NO_PLAYLIST)
    | _ => (names, s)
    end in
  let s := s |> set_playlist_combo names in
  if mem (current_playlist s) names then s
  else s |> set_current_playlist (hd NO_PLAYLIST names).

Definition _load_playlists (s : State) : State :=
  s |> set_playlists (default ∅ (playlists_file s)) |> _refresh_playlist_combo.

Definition _save_playlists (s : State) : State :=
  (if playlists_writable env then s |> set_playlists_file (Some (playlists s)) else s)
  |> _refresh_playlist_combo.

(** [name] is what the input dialog returned: [None] when cancelled, else
    the stripped text. *)
Definition _playlist_new (name : option string) (s : State) : State :=
  match name with
  | None | Some EmptyString => s
  | Some name =>
      match playlists s !! name with
      | Some _ => s |> set_dialogs (InfoPlaylistExists :: dialogs s)
      | None =>
          s |> set_playlists (<[name := []]> (playlists s))
            |> _save_playlists
            |> _refresh_playlist_combo
      end
  end.

Definition no_playlist_chosen (name : string) : bool :=
  match name with
  | EmptyString => true
  | _ => String.eqb name NO_PLAYLIST
  end.

(** The loop of [_playlist_add_selected] over the selected rows. *)
Fixpoint add_rows (name : string) (sel : list Z) (s : State) : Outcome :=
  match sel with
  | [] => Returned s
  | i :: sel' =>
      match filtered_files s !! Z.to_nat i with
      | None => Raised IndexError s
      | Some p =>
          match playlists s !! name with
          | None => Raised KeyError s
          | Some ps =>
              if mem p ps then add_rows name sel' s
              else add_rows name sel' (s |> set_playlists (<[name := (ps ++ [p])%list]> (playlists s)))
          end
      end
  end.

Definition _playlist_add_selected (s : State) : Outcome :=
  let name := current_playlist s in
  if no_playlist_chosen name then Returned (s |> set_dialogs (InfoNoPlaylist :: dialogs s))
  else
    match listbox_selection s with
    | [] => Returned (s |> set_dialogs (InfoNoSelection :: dialogs s))
    | sel =>
        match add_rows name sel s with
        | Returned s =>
            Returned (s |> _save_playlists
                        |> set_status_var (StAddedToPlaylist (length sel) name))
        | Raised e s => Raised e s
        end
    end.

(** [confirm] is the answer to the yes/no box. *)
Definition _playlist_remove (confirm : bool) (s : State) : State :=
  let name := current_playlist s in
  if no_playlist_chosen name then s
  else if confirm then
    s |> set_playlists (delete name (playlists s))
      |> _save_playlists
      |> set_status_var (StPlaylistRemoved name)
  else s.

Definition _apply_selected_playlist (s : State) : State :=
  let name := current_playlist s in
  if no_playlist_chosen name then s
  else
    let fs := List.filter (path_exists env) (default [] (playlists s !! name)) in
    let s := s |> set_files fs |> _apply_search_filter in
    s |> set_status_var (StLoadedPlaylist name (length (files s))).

(** *** The event loop firing a delayed callback *)

Definition find_timer (id : nat) (s : State) : option Timer :=
  List.find (fun t => Nat.eqb (tid t) id) (pending s).

Definition fire (limit : nat) (id : nat) (s : State) : Outcome :=
  match find_timer id s with
  | None => Returned s
  | Some t =>
      let s := after_cancel id s in
      match callback t with
      | CbTickCountdown => _tick_countdown (play_next limit) s
      | CbPlayNext => play_next limit s
      end
  end.

(** *** [__init__] *)

Definition _load_sfx_files : list string :=
  match listdir_sfx env with
  | Some names => Py.sort (List.filter (fun fn => Py.endswith_any SFX_EXTS (Py.lower fn)) names)
  | None => []
  end.

(** The object once [__init__] is through; [doc] is the content of the
    playlist document on disk, [None] when there is none or it is unreadable.
    The background-music player is a separate object and is left out. *)
Definition init (doc : option (gmap string (list string))) : State :=
  {| folder := None; files := []; filtered_files := []; current_index := None;
     is_running := false; is_paused := false; shuffle := true; interval_seconds := 30;
     loop_videos := false; vlc_instance := false; vlc_player := false;
     sfx_files := _load_sfx_files; enable_image_sfx := true;
     playlists := ∅; current_playlist := NO_PLAYLIST; search_var := "";
     _after_id := None; _countdown_seconds_left := 0;
     progress_value := 0; progress_maximum := 100; timer_label := None;
     status_var := StStartup; listbox_selection := []; playlist_combo := [];
     image_panel := Blank; pending := []; after_counter := 0; vlc_state := VlcNoMedia;
     draws := 0; dialogs := []; sfx_log := []; playlists_file := doc |}
  |> _load_playlists.

(** ** User actions and runs

    One constructor per thing that can happen to the window: a button, a
    key release in the search box, a choice in the playlist selector, a change
    of one of the Tk variables, or the event loop firing a delayed callback. *)

Inductive Op :=
| Start
| Stop
| TogglePause
| PlayNext
| PlayPrev
| ListSelect (sel : list Z)
| ListDouble
| SelectFolder (choice : string)
| TypeSearch (text : string)
| PickPlaylist (name : string)
| PlaylistNew (name : option string)
| PlaylistAddSelected
| PlaylistRemove (confirm : bool)
| SetShuffle (b : bool)
| SetInterval (seconds : Z)
| SetLoopVideos (b : bool)
| SetImageSfx (b : bool)
| Fire (id : nat).

Definition rows_exist (sel : list Z) (s : State) : bool :=
  forallb (fun i => (0 <=? i) && (i <? len (filtered_files s))) sel.

(** The listbox only lets existing rows be selected and the selector only
    offers the names in [playlist_combo]. *)
Definition step (limit : nat) (o : Op) (s : State) : Outcome :=
  match o with
  | Start => start limit s
  | Stop => Returned (stop s)
  | TogglePause => Returned (toggle_pause s)
  | PlayNext => play_next limit s
  | PlayPrev => play_prev limit s
  | ListSelect sel =>
      Returned (if rows_exist sel s then s |> set_listbox_selection sel else s)
  | ListDouble => _on_list_double limit s
  | SelectFolder choice => Returned (select_folder choice s)
  | TypeSearch text => Returned (s |> set_search_var text |> _apply_search_filter)
  | PickPlaylist name =>
      Returned (if mem name (playlist_combo s)
                then s |> set_current_playlist name |> _apply_selected_playlist
                else s)
  | PlaylistNew name => Returned (_playlist_new name s)
  | PlaylistAddSelected => _playlist_add_selected s
  | PlaylistRemove confirm => Returned (_playlist_remove confirm s)
  | SetShuffle b => Returned (s |> set_shuffle b)
  | SetInterval seconds => Returned (s |> set_interval_seconds seconds)
  | SetLoopVideos b => Returned (s |> set_loop_videos b)
  | SetImageSfx b => Returned (s |> set_enable_image_sfx b)
  | Fire id => fire limit id s
  end.

(** An exception raised inside a Tk callback is reported and the window
    lives on with the attributes as they are: a run goes on from there. *)
Fixpoint run (limit : nat) (ops : list Op) (s : State) : State :=
  match ops with
  | [] => s
  | o :: ops' => run limit ops' (state_of (step limit o s))
  end.

End Player.

(** * The first player: [src/MemePlayer.py]

    The same window without playlists, search box and countdown display: the
    catalog is [files], and [_play_current] registers [play_next] itself, due
    after the whole interval.  A video is cut off by a [threading.Timer],
    kept in [_video_stop_timer] (here: the seconds it was started with).  The
    VLC calls of this file are not wrapped in [try]: one that raises leaves
    the callback with [BackendError]. *)

Module Basic.

Definition IMAGE_EXTS : list string := [".png"; ".jpg"; ".jpeg"; ".webp"].
Definition VIDEO_EXTS : list string := [".mp4"; ".mov"; ".m4v"].
Definition PLAYABLE_EXTS : list string := IMAGE_EXTS ++ VIDEO_EXTS.

Record State := {
  folder : option string;
  files : list string;
  current_index : option Z;
  is_running : bool;
  is_paused : bool;
  shuffle : bool;
  interval_seconds : Z;
  vlc_instance : bool;
  vlc_player : bool;
  _after_id : option nat;
  _video_stop_timer : option Z;
  status_var : Status;
  listbox_selection : list Z;
  image_panel : Display;
  pending : list Timer;
  after_counter : nat;
  vlc_state : VlcState;
  draws : nat;
  dialogs : list Dialog
}.

Definition set_folder (v : option string) (s : State) : State :=
  {| folder := v; files := files s; current_index := current_index s; is_running := is_running s;
     is_paused := is_paused s; shuffle := shuffle s; interval_seconds := interval_seconds s;
     vlc_instance := vlc_instance s; vlc_player := vlc_player s; _after_id := _after_id s;
     _video_stop_timer := _video_stop_timer s; status_var := status_var s;
     listbox_selection := listbox_selection s; image_panel := image_panel s; pending := pending s;
     after_counter := after_counter s; vlc_state := vlc_state s; draws := draws s;
     dialogs := dialogs s |}.

Definition set_files (v : list string) (s : State) : State :=
  {| folder := folder s; files := v; current_index := current_index s; is_running := is_running s;
     is_paused := is_paused s; shuffle := shuffle s; interval_seconds := interval_seconds s;
     vlc_instance := vlc_instance s; vlc_player := vlc_player s; _after_id := _after_id s;
     _video_stop_timer := _video_stop_timer s; status_var := status_var s;
     listbox_selection := listbox_selection s; image_panel := image_panel s; pending := pending s;
     after_counter := after_counter s; vlc_state := vlc_state s; draws := draws s;
     dialogs := dialogs s |}.

Definition set_current_index (v : option Z) (s : State) : State :=
  {| folder := folder s; files := files s; current_index := v; is_running := is_running s;
     is_paused := is_paused s; shuffle := shuffle s; interval_seconds := interval_seconds s;
     vlc_instance := vlc_instance s; vlc_player := vlc_player s; _after_id := _after_id s;
     _video_stop_timer := _video_stop_timer s; status_var := status_var s;
     listbox_selection := listbox_selection s; image_panel := image_panel s; pending := pending s;
     after_counter := after_counter s; vlc_state := vlc_state s; draws := draws s;
     dialogs := dialogs s |}.

Definition set_is_running (v : bool) (s : State) : State :=
  {| folder := folder s; files := files s; current_index := current_index s; is_running := v;
     is_paused := is_paused s; shuffle := shuffle s; interval_seconds := interval_seconds s;
     vlc_instance := vlc_instance s; vlc_player := vlc_player s; _after_id := _after_id s;
     _video_stop_timer := _video_stop_timer s; status_var := status_var s;
     listbox_selection := listbox_selection s; image_panel := image_panel s; pending := pending s;
     after_counter := after_counter s; vlc_state := vlc_state s; draws := draws s;
     dialogs := dialogs s |}.

Definition set_is_paused (v : bool) (s : State) : State :=
  {| folder := folder s; files := files s; current_index := current_index s;
     is_running := is_running s; is_paused := v; shuffle := shuffle s;
     interval_seconds := interval_seconds s; vlc_instance := vlc_instance s;
     vlc_player := vlc_player s; _after_id := _after_id s;
     _video_stop_timer := _video_stop_timer s; status_var := status_var s;
     listbox_selection := listbox_selection s; image_panel := image_panel s; pending := pending s;
     after_counter := after_counter s; vlc_state := vlc_state s; draws := draws s;
     dialogs := dialogs s |}.

Definition set_shuffle (v : bool) (s : State) : State :=
  {| folder := folder s; files := files s; current_index := current_index s;
     is_running := is_running s; is_paused := is_paused s; shuffle := v;
     interval_seconds := interval_seconds s; vlc_instance := vlc_instance s;
     vlc_player := vlc_player s; _after_id := _after_id s;
     _video_stop_timer := _video_stop_timer s; status_var := status_var s;
     listbox_selection := listbox_selection s; image_panel := image_panel s; pending := pending s;
     after_counter := after_counter s; vlc_state := vlc_state s; draws := draws s;
     dialogs := dialogs s |}.

Definition set_interval_seconds (v : Z) (s : State) : State :=
  {| folder := folder s; files := files s; current_index := current_index s;
     is_running := is_running s; is_paused := is_paused s; shuffle := shuffle s;
     interval_seconds := v; vlc_instance := vlc_instance s; vlc_player := vlc_player s;
     _after_id := _after_id s; _video_stop_timer := _video_stop_timer s;
     status_var := status_var s; listbox_selection := listbox_selection s;
     image_panel := image_panel s; pending := pending s; after_counter := after_counter s;
     vlc_state := vlc_state s; draws := draws s; dialogs := dialogs s |}.

Definition set_vlc_instance (v : bool) (s : State) : State :=
  {| folder := folder s; files := files s; current_index := current_index s;
     is_running := is_running s; is_paused := is_paused s; shuffle := shuffle s;
     interval_seconds := interval_seconds s; vlc_instance := v; vlc_player := vlc_player s;
     _after_id := _after_id s; _video_stop_timer := _video_stop_timer s;
     status_var := status_var s; listbox_selection := listbox_selection s;
     image_panel := image_panel s; pending := pending s; after_counter := after_counter s;
     vlc_state := vlc_state s; draws := draws s; dialogs := dialogs s |}.

Definition set_vlc_player (v : bool) (s : State) : State :=
  {| folder := folder s; files := files s; current_index := current_index s;
     is_running := is_running s; is_paused := is_paused s; shuffle := shuffle s;
     interval_seconds := interval_seconds s; vlc_instance := vlc_instance s; vlc_player := v;
     _after_id := _after_id s; _video_stop_timer := _video_stop_timer s;
     status_var := status_var s; listbox_selection := listbox_selection s;
     image_panel := image_panel s; pending := pending s; after_counter := after_counter s;
     vlc_state := vlc_state s; draws := draws s; dialogs := dialogs s |}.

Definition set__after_id (v : option nat) (s : State) : State :=
  {| folder := folder s; files := files s; current_index := current_index s;
     is_running := is_running s; is_paused := is_paused s; shuffle := shuffle s;
     interval_seconds := interval_seconds s; vlc_instance := vlc_instance s;
     vlc_player := vlc_player s; _after_id := v; _video_stop_timer := _video_stop_timer s;
     status_var := status_var s; listbox_selection := listbox_selection s;
     image_panel := image_panel s; pending := pending s; after_counter := after_counter s;
     vlc_state := vlc_state s; draws := draws s; dialogs := dialogs s |}.

Definition set__video_stop_timer (v : option Z) (s : State) : State :=
  {| folder := folder s; files := files s; current_index := current_index s;
     is_running := is_running s; is_paused := is_paused s; shuffle := shuffle s;
     interval_seconds := interval_seconds s; vlc_instance := vlc_instance s;
     vlc_player := vlc_player s; _after_id := _after_id s; _video_stop_timer := v;
     status_var := status_var s; listbox_selection := listbox_selection s;
     image_panel := image_panel s; pending := pending s; after_counter := after_counter s;
     vlc_state := vlc_state s; draws := draws s; dialogs := dialogs s |}.

Definition set_status_var (v : Status) (s : State) : State :=
  {| folder := folder s; files := files s; current_index := current_index s;
     is_running := is_running s; is_paused := is_paused s; shuffle := shuffle s;
     interval_seconds := interval_seconds s; vlc_instance := vlc_instance s;
     vlc_player := vlc_player s; _after_id := _after_id s;
     _video_stop_timer := _video_stop_timer s; status_var := v;
     listbox_selection := listbox_selection s; image_panel := image_panel s; pending := pending s;
     after_counter := after_counter s; vlc_state := vlc_state s; draws := draws s;
     dialogs := dialogs s |}.

Definition set_listbox_selection (v : list Z) (s : State) : State :=
  {| folder := folder s; files := files s; current_index := current_index s;
     is_running := is_running s; is_paused := is_paused s; shuffle := shuffle s;
     interval_seconds := interval_seconds s; vlc_instance := vlc_instance s;
     vlc_player := vlc_player s; _after_id := _after_id s;
     _video_stop_timer := _video_stop_timer s; status_var := status_var s; listbox_selection := v;
     image_panel := image_panel s; pending := pending s; after_counter := after_counter s;
     vlc_state := vlc_state s; draws := draws s; dialogs := dialogs s |}.

Definition set_image_panel (v : Display) (s : State) : State :=
  {| folder := folder s; files := files s; current_index := current_index s;
     is_running := is_running s; is_paused := is_paused s; shuffle := shuffle s;
     interval_seconds := interval_seconds s; vlc_instance := vlc_instance s;
     vlc_player := vlc_player s; _after_id := _after_id s;
     _video_stop_timer := _video_stop_timer s; status_var := status_var s;
     listbox_selection := listbox_selection s; image_panel := v; pending := pending s;
     after_counter := after_counter s; vlc_state := vlc_state s; draws := draws s;
     dialogs := dialogs s |}.

Definition set_pending (v : list Timer) (s : State) : State :=
  {| folder := folder s; files := files s; current_index := current_index s;
     is_running := is_running s; is_paused := is_paused s; shuffle := shuffle s;
     interval_seconds := interval_seconds s; vlc_instance := vlc_instance s;
     vlc_player := vlc_player s; _after_id := _after_id s;
     _video_stop_timer := _video_stop_timer s; status_var := status_var s;
     listbox_selection := listbox_selection s; image_panel := image_panel s; pending := v;
     after_counter := after_counter s; vlc_state := vlc_state s; draws := draws s;
     dialogs := dialogs s |}.

Definition set_after_counter (v : nat) (s : State) : State :=
  {| folder := folder s; files := files s; current_index := current_index s;
     is_running := is_running s; is_paused := is_paused s; shuffle := shuffle s;
     interval_seconds := interval_seconds s; vlc_instance := vlc_instance s;
     vlc_player := vlc_player s; _after_id := _after_id s;
     _video_stop_timer := _video_stop_timer s; status_var := status_var s;
     listbox_selection := listbox_selection s; image_panel := image_panel s; pending := pending s;
     after_counter := v; vlc_state := vlc_state s; draws := draws s; dialogs := dialogs s |}.

Definition set_vlc_state (v : VlcState) (s : State) : State :=
  {| folder := folder s; files := files s; current_index := current_index s;
     is_running := is_running s; is_paused := is_paused s; shuffle := shuffle s;
     interval_seconds := interval_seconds s; vlc_instance := vlc_instance s;
     vlc_player := vlc_player s; _after_id := _after_id s;
     _video_stop_timer := _video_stop_timer s; status_var := status_var s;
     listbox_selection := listbox_selection s; image_panel := image_panel s; pending := pending s;
     after_counter := after_counter s; vlc_state := v; draws := draws s; dialogs := dialogs s |}.

Definition set_draws (v : nat) (s : State) : State :=
  {| folder := folder s; files := files s; current_index := current_index s;
     is_running := is_running s; is_paused := is_paused s; shuffle := shuffle s;
     interval_seconds := interval_seconds s; vlc_instance := vlc_instance s;
     vlc_player := vlc_player s; _after_id := _after_id s;
     _video_stop_timer := _video_stop_timer s; status_var := status_var s;
     listbox_selection := listbox_selection s; image_panel := image_panel s; pending := pending s;
     after_counter := after_counter s; vlc_state := vlc_state s; draws := v;
     dialogs := dialogs s |}.

Definition set_dialogs (v : list Dialog) (s : State) : State :=
  {| folder := folder s; files := files s; current_index := current_index s;
     is_running := is_running s; is_paused := is_paused s; shuffle := shuffle s;
     interval_seconds := interval_seconds s; vlc_instance := vlc_instance s;
     vlc_player := vlc_player s; _after_id := _after_id s;
     _video_stop_timer := _video_stop_timer s; status_var := status_var s;
     listbox_selection := listbox_selection s; image_panel := image_panel s; pending := pending s;
     after_counter := after_counter s; vlc_state := vlc_state s; draws := draws s; dialogs := v |}.

Inductive Outcome :=
| Returned (s : State)
| Raised (e : Exn) (s : State).

Definition state_of (o : Outcome) : State :=
  match o with
  | Returned s => s
  | Raised _ s => s
  end.

Definition after (ms : Z) (cb : Callback) (s : State) : State :=
  s |> set_pending (pending s ++ [{| tid := after_counter s; delay_ms := ms; callback := cb |}])%list
    |> set_after_counter (S (after_counter s)).

Definition after_cancel (id : nat) (s : State) : State :=
  s |> set_pending (filter (fun t => tid t ≠ id) (pending s)).

Definition _cancel_timers (s : State) : State :=
  match _after_id s with
  | Some id => s |> after_cancel id |> set__after_id None
  | None => s
  end.

Definition _stop_video (s : State) : State :=
  let s := if vlc_player s then s |> set_vlc_state (vlc_stop (vlc_state s)) else s in
  match _video_stop_timer s with
  | Some _ => s |> set__video_stop_timer None
  | None => s
  end.

Section Player.

Variable env : Env.

Definition _show_image (path : string) (s : State) : State :=
  if image_opens env path
  then s |> set_image_panel (Picture path) |> set_status_var (StDisplayingImage path)
  else s |> set_status_var StErrorShowingImage.

Definition _show_placeholder_video (path : string) (s : State) : State :=
  s |> set_image_panel (Placeholder path) |> set_status_var (StNoVideoBackend path).

Definition _play_video (path : string) (s : State) : Outcome :=
  let s := s |> set_image_panel (VideoSurface path) in
  if negb (vlc_player s) then Returned s
  else if video_opens env path
  then Returned (s |> set_vlc_state (VlcPlaying path)
                   |> set_status_var (StPlayingVideo path)
                   |> set__video_stop_timer (Some (interval_seconds s)))
  else Raised BackendError s.

(** The last statement of [_play_current]. *)
Definition schedule_next (s : State) : State :=
  if is_running s && negb (is_paused s)
  then s |> set__after_id (Some (after_counter s))
         |> after (interval_seconds s * 1000) CbPlayNext
  else s.

Definition _play_current (s : State) : Outcome :=
  let s := _cancel_timers s in
  match current_index s with
  | None => Returned s
  | Some idx =>
      if (idx <? 0) || (len (files s) <=? idx) then Returned s
      else
        match files s !! Z.to_nat idx with
        | None => Raised IndexError s
        | Some path =>
            let s := s |> set_listbox_selection [idx] in
            let ext := Py.lower (Py.splitext_ext path) in
            if mem ext IMAGE_EXTS then
              Returned (s |> _stop_video |> _show_image path |> schedule_next)
            else if mem ext VIDEO_EXTS then
              if negb (VLC_AVAILABLE env) then
                Returned (s |> _stop_video |> _show_placeholder_video path |> schedule_next)
              else
                match _play_video path s with
                | Returned s => Returned (schedule_next s)
                | Raised e s => Raised e s
                end
            else Returned (s |> set_status_var (StUnknownFileType path) |> schedule_next)
        end
  end.

Definition pick_random (s : State) : State :=
  s |> set_current_index (Some (randrange env (draws s) (len (files s))))
    |> set_draws (S (draws s)).

Definition step_forward (s : State) : State :=
  match current_index s with
  | None => s |> set_current_index (Some 0)
  | Some i => s |> set_current_index (Some ((i + 1) mod len (files s)))
  end.

Definition step_backward (s : State) : State :=
  match current_index s with
  | None => s |> set_current_index (Some 0)
  | Some i => s |> set_current_index (Some ((i - 1) mod len (files s)))
  end.

Definition play_next (s : State) : Outcome :=
  if is_empty (files s) then Returned s
  else (if shuffle s then pick_random s else step_forward s) |> _play_current.

Definition play_prev (s : State) : Outcome :=
  if is_empty (files s) then Returned s
  else (if shuffle s then pick_random s else step_backward s) |> _play_current.

Definition has_video (fs : list string) : bool :=
  existsb (fun f => Py.endswith_any VIDEO_EXTS (Py.lower f)) fs.

Definition start (s : State) : Outcome :=
  if negb (truthy (folder s)) || is_empty (files s)
  then Returned (s |> set_dialogs (WarnNoFolder :: dialogs s))
  else
    let s := if negb (VLC_AVAILABLE env) && has_video (files s)
             then s |> set_dialogs (WarnVlcMissing :: dialogs s) else s in
    if negb (vlc_instance s) && VLC_AVAILABLE env && negb (vlc_starts env)
    then Raised BackendError s
    else
      let s := if negb (vlc_instance s) && VLC_AVAILABLE env
               then s |> set_vlc_instance true |> set_vlc_player true else s in
      let s := s |> set_is_running true
                 |> set_is_paused false
                 |> set_status_var StRunning in
      let s := match current_index s with
               | None => s |> set_current_index (Some 0)
               | Some _ => s
               end in
      _play_current s.

Definition stop (s : State) : State :=
  s |> set_is_running false
    |> set_is_paused false
    |> _cancel_timers
    |> _stop_video
    |> set_image_panel Blank
    |> set_status_var StStopped.

Definition toggle_pause (s : State) : State :=
  if negb (is_running s) then s
  else if is_paused s then
    let s := s |> set_is_paused false in
    let s := match _after_id s with
             | None => s |> set__after_id (Some (after_counter s))
                         |> after (interval_seconds s * 1000) CbPlayNext
             | Some _ => s
             end in
    let s := if vlc_player s && VLC_AVAILABLE env
             then s |> set_vlc_state (vlc_play (vlc_state s)) else s in
    s |> set_status_var StResumed
  else
    let s := s |> set_is_paused true |> _cancel_timers in
    let s := if vlc_player s && VLC_AVAILABLE env
             then s |> set_vlc_state (vlc_pause (vlc_state s)) else s in
    s |> set_status_var StPaused.

Definition _on_list_double (s : State) : Outcome :=
  match listbox_selection s with
  | [] => Returned s
  | i :: _ => s |> set_current_index (Some i) |> _play_current
  end.

Definition scan (folder : string) : list string :=
  Py.sort
    (map (fun '(root, fn) => root ++ "/" ++ fn)
       (List.filter (fun '(root, fn) => Py.endswith_any PLAYABLE_EXTS (Py.lower fn))
          (walk env folder))).

Definition _load_files (s : State) : State :=
  s |> set_files (scan (default "" (folder s)))
    |> set_listbox_selection []
    |> set_current_index None.

Definition select_folder (choice : string) (s : State) : State :=
  match choice with
  | EmptyString => s
  | _ =>
      let s := s |> set_folder (Some choice) |> _load_files in
      s |> set_status_var (StSelectedFolder choice (length (files s)))
  end.

(** The event loop fires a delayed callback; all of them are [play_next]. *)
Definition fire (id : nat) (s : State) : Outcome :=
  match List.find (fun t => Nat.eqb (tid t) id) (pending s) with
  | None => Returned s
  | Some _ => play_next (after_cancel id s)
  end.

(** The [threading.Timer] started by [_play_video] runs [_stop_video]. *)
Definition video_timer_fires (s : State) : State :=
  match _video_stop_timer s with
  | Some _ => _stop_video s
  | None => s
  end.

Definition init : State :=
  {| folder := None; files := []; current_index := None;
     is_running := false; is_paused := false; shuffle := true; interval_seconds := 30;
     vlc_instance := false; vlc_player := false;
     _after_id := None; _video_stop_timer := None;
     status_var := StStartup; listbox_selection := []; image_panel := Blank;
     pending := []; after_counter := 0; vlc_state := VlcNoMedia; draws := 0;
     dialogs := [] |}.

Inductive Op :=
| Start
| Stop
| TogglePause
| PlayNext
| PlayPrev
| ListSelect (sel : list Z)
| ListDouble
| SelectFolder (choice : string)
| SetShuffle (b : bool)
| SetInterval (seconds : Z)
| Fire (id : nat)
| VideoTimer.

Definition rows_exist (sel : list Z) (s : State) : bool :=
  forallb (fun i => (0 <=? i) && (i <? len (files s))) sel.

Definition step (o : Op) (s : State) : Outcome :=
  match o with
  | Start => start s
  | Stop => Returned (stop s)
  | TogglePause => Returned (toggle_pause s)
  | PlayNext => play_next s
  | PlayPrev => play_prev s
  | ListSelect sel =>
      Returned (if rows_exist sel s then s |> set_listbox_selection sel else s)
  | ListDouble => _on_list_double s
  | SelectFolder choice => Returned (select_folder choice s)
  | SetShuffle b => Returned (s |> set_shuffle b)
  | SetInterval seconds => Returned (s |> set_interval_seconds seconds)
  | Fire id => fire id s
  | VideoTimer => Returned (video_timer_fires s)
  end.

Fixpoint run (ops : list Op) (s : State) : State :=
  match ops with
  | [] => s
  | o :: ops' => run ops' (state_of (step o s))
  end.

End Player.

End Basic.

(** * Properties *)

(** ** The string helpers on examples *)

Example lower_mixed : Py.lower "CaT.PNG" = "cat.png".
Proof. reflexivity. Qed.

Example strip_both : Py.strip "  a b  " = "a b".
Proof. reflexivity. Qed.

Example basename_nested : Py.basename "/memes/cats/Grumpy.JPG" = "Grumpy.JPG".
Proof. reflexivity. Qed.

Example splitext_plain : Py.splitext_ext "/memes/a.b/clip.tar.MP4" = ".MP4".
Proof. reflexivity. Qed.

Example splitext_hidden : Py.splitext_ext "/memes/.hidden" = "".
Proof. reflexivity. Qed.

Example contains_inner : Py.contains "ump" "grumpy.jpg" = true.
Proof. reflexivity. Qed.

Example sort_names : Py.sort ["b.png"; "a.mp4"; "c.jpg"] = ["a.mp4"; "b.png"; "c.jpg"].
Proof. reflexivity. Qed.

(** ** What the display and countdown helpers leave alone

    [settings] gathers the attributes that only user actions change, [clock]
    the countdown with Tk's queue of delayed callbacks.  The display helpers
    touch neither, the countdown helpers touch the clock only. *)

Definition settings (s : State) :=
  (folder s, files s, filtered_files s, is_running s, is_paused s, shuffle s,
   interval_seconds s, loop_videos s, vlc_player s, sfx_files s, enable_image_sfx s,
   playlists s, current_playlist s, search_var s, playlist_combo s, dialogs s,
   playlists_file s).

Definition clock (s : State) :=
  (_after_id s, _countdown_seconds_left s, progress_value s, progress_maximum s,
   timer_label s, pending s, after_counter s).

(** Two objects that differ in what is displayed at most. *)
Definition same_player (s s' : State) : Prop :=
  settings s' = settings s /\ current_index s' = current_index s /\ clock s' = clock s.

Lemma same_player_refl s : same_player s s.
Proof. repeat split. Qed.

Lemma same_player_trans s1 s2 s3 :
  same_player s1 s2 -> same_player s2 s3 -> same_player s1 s3.
Proof.
  intros (H1 & H2 & H3) (K1 & K2 & K3).
  repeat split; congruence.
Qed.

Lemma _stop_video_same s : same_player s (_stop_video s).
Proof. unfold _stop_video. destruct (vlc_player s); repeat split. Qed.

Section Frames.

Variable env : Env.

Lemma _show_image_same path s : same_player s (_show_image env path s).
Proof. unfold _show_image. destruct (image_opens env path); repeat split. Qed.

Lemma _show_placeholder_video_same path s :
  same_player s (_show_placeholder_video path s).
Proof. repeat split. Qed.

Lemma _play_video_same path s : same_player s (_play_video env path s).
Proof.
  unfold _play_video. cbn.
  destruct (vlc_player s); cbn; [destruct (video_opens env path) |]; repeat split.
Qed.

Lemma play_image_sfx_same s : same_player s (play_image_sfx env s).
Proof.
  unfold play_image_sfx.
  repeat match goal with
         | |- context [if ?b then _ else _] => destruct b
         | |- context [match ?o with Some _ => _ | None => _ end] => destruct o
         end; repeat split.
Qed.

End Frames.

(** ** The countdown step by step *)

(** A running player that is not paused. *)
Definition ticking (s : State) : bool := is_running s && negb (is_paused s).

(** What [_start_countdown] and [_start_countdown_for_video_loop] do before
    the first [_tick_countdown]. *)
Definition prepare (seconds : Z) (s : State) : State :=
  s |> _cancel_timers
    |> set__countdown_seconds_left seconds
    |> set_progress_maximum seconds
    |> set_progress_value 0.

(** The branch of [_tick_countdown] that hands over to [play_next]. *)
Definition expire (s : State) : State :=
  s |> set_timer_label (Some 0) |> set_progress_value (progress_maximum s).

(** The branch of [_tick_countdown] that counts one second down and
    registers the next tick. *)
Definition count_down (s : State) : State :=
  let s := s |> set_timer_label (Some (_countdown_seconds_left s))
             |> set_progress_value (progress_value s + 1)
             |> set__countdown_seconds_left (_countdown_seconds_left s - 1) in
  s |> set__after_id (Some (after_counter s)) |> after 1000 CbTickCountdown.

Lemma _tick_countdown_cases next s :
  _tick_countdown next s =
    if negb (ticking s) then Returned s
    else if _countdown_seconds_left s <=? 0 then next (expire s)
    else Returned (count_down s).
Proof.
  unfold _tick_countdown, ticking.
  destruct (is_running s), (is_paused s); reflexivity.
Qed.

Lemma _start_countdown_eq next seconds s :
  _start_countdown next seconds s = _tick_countdown next (prepare seconds s).
Proof. reflexivity. Qed.

Lemma _cancel_timers_settings s :
  settings (_cancel_timers s) = settings s /\
  current_index (_cancel_timers s) = current_index s /\
  listbox_selection (_cancel_timers s) = listbox_selection s /\
  draws (_cancel_timers s) = draws s.
Proof. unfold _cancel_timers. destruct (_after_id s); repeat split. Qed.

Section Rendering.

Variable env : Env.

(** How [_play_current] may leave the object: [shown s s1] relates the object
    after [_cancel_timers] to the one after the display has been updated. *)
Definition shown (s s1 : State) : Prop :=
  same_player s s1 /\
  (listbox_selection s1 = listbox_selection s \/
   exists idx, current_index s = Some idx /\ 0 <= idx < len (filtered_files s) /\
               listbox_selection s1 = [idx]).

Lemma video_loop_seconds_pos path s :
  0 < interval_seconds s -> 0 < video_loop_seconds env path s.
Proof.
  intros Hpos. unfold video_loop_seconds.
  destruct (media_duration env path) as [ms|]; [|assumption].
  destruct (0 <? ms); [|assumption].
  destruct (ms / 1000 =? 0) eqn:E0; [assumption|].
  destruct (ms / 1000 <=? 0) eqn:E1; [assumption|]. cbn. lia.
Qed.

Lemma video_loop_seconds_cancel path s :
  video_loop_seconds env path (_cancel_timers s) = video_loop_seconds env path s.
Proof. unfold _cancel_timers. destruct (_after_id s); reflexivity. Qed.

(** [_play_current] updates the display and then either returns, or arms a
    countdown of [seconds] and runs its first tick. *)
Lemma _play_current_post (Q : Outcome -> Prop) next s :
  (forall s1, shown (_cancel_timers s) s1 -> Q (Returned s1)) ->
  (forall s1 seconds,
      shown (_cancel_timers s) s1 ->
      (0 < interval_seconds s -> 0 < seconds) ->
      Q (_tick_countdown next (prepare seconds s1))) ->
  Q (_play_current env next s).
Proof.
  intros Hret Harm. unfold _play_current.
  set (c := _cancel_timers s) in *.
  assert (Hc : shown c c) by (split; [apply same_player_refl | now left]).
  destruct (current_index c) as [idx|] eqn:Hidx; [|now apply Hret].
  destruct ((idx <? 0) || (len (filtered_files c) <=? idx)) eqn:Hrange; [now apply Hret|].
  apply orb_false_iff in Hrange as [Hlo Hhi].
  apply Z.ltb_ge in Hlo. apply Z.leb_gt in Hhi.
  destruct (filtered_files c !! Z.to_nat idx) as [path|] eqn:Hpath.
  2:{ apply lookup_ge_None in Hpath. unfold len in Hhi. lia. }
  set (s1 := set_listbox_selection [idx] c).
  assert (H1 : shown c s1).
  { split; [repeat split | right; exists idx; repeat split; assumption]. }
  assert (Hint : interval_seconds c = interval_seconds s).
  { subst c. unfold _cancel_timers. destruct (_after_id s); reflexivity. }
  assert (Hsched : forall s2, shown c s2 -> Q (schedule_next next s2)).
  { intros s2 H2. unfold schedule_next.
    destruct (is_running s2 && negb (is_paused s2)); [|now apply Hret].
    rewrite _start_countdown_eq.
    replace (interval_seconds s2) with (interval_seconds s).
    - apply Harm; [assumption | auto].
    - destruct H2 as ((Hs & _ & _) & _). rewrite <- Hint.
      unfold settings in Hs. congruence. }
  assert (Hext : forall (f : State -> State) s2,
             (forall s, same_player s (f s)) ->
             (forall s, listbox_selection (f s) = listbox_selection s) ->
             shown c s2 -> shown c (f s2)).
  { intros f s2 Hf Hsel (Hsame & Hl). split.
    - eapply same_player_trans; [exact Hsame | apply Hf].
    - rewrite Hsel. exact Hl. }
  destruct (mem (Py.lower (Py.splitext_ext path)) IMAGE_EXTS).
  { apply Hsched.
    apply (Hext (play_image_sfx env)); [apply play_image_sfx_same | |].
    { intros s0. unfold play_image_sfx.
      repeat match goal with
             | |- context [if ?b then _ else _] => destruct b
             | |- context [match ?o with Some _ => _ | None => _ end] => destruct o
             end; reflexivity. }
    apply (Hext (_show_image env path)); [apply _show_image_same | |].
    { intros s0. unfold _show_image. destruct (image_opens env path); reflexivity. }
    apply (Hext _stop_video); [apply _stop_video_same | | exact H1].
    intros s0. unfold _stop_video. destruct (vlc_player s0); reflexivity. }
  destruct (mem (Py.lower (Py.splitext_ext path)) VIDEO_EXTS).
  2:{ apply Hret. apply (Hext (set_status_var (StUnknownFileType path)));
      [intros; repeat split | reflexivity | exact H1]. }
  destruct (negb (VLC_AVAILABLE env) || negb (vlc_player s1)).
  { apply Hsched.
    apply (Hext (_show_placeholder_video path));
      [apply _show_placeholder_video_same | reflexivity |].
    apply (Hext _stop_video); [apply _stop_video_same | | exact H1].
    intros s0. unfold _stop_video. destruct (vlc_player s0); reflexivity. }
  assert (H2 : shown c (_play_video env path s1)).
  { apply (Hext (_play_video env path)); [apply _play_video_same | | exact H1].
    intros s0. unfold _play_video. cbn.
    destruct (vlc_player s0); cbn; [destruct (video_opens env path)|]; reflexivity. }
  destruct (loop_videos (_play_video env path s1)); [|now apply Hsched].
  unfold _start_countdown_for_video_loop.
  rewrite video_loop_seconds_cancel.
  apply (Harm _ _ H2).
  intros Hpos. apply video_loop_seconds_pos.
  destruct H2 as ((Hs & _ & _) & _). unfold settings in Hs.
  replace (interval_seconds (_play_video env path s1)) with (interval_seconds c) by congruence.
  now rewrite Hint.
Qed.

End Rendering.

(** ** When a call returns

    With a positive interval the countdown armed by [_play_current] is not
    over at its first tick, so [play_next] is not re-entered. *)

Definition interval_ok (s : State) : Prop :=
  ticking s = true -> 0 < interval_seconds s.

Lemma prepare_facts seconds s :
  settings (prepare seconds s) = settings s /\
  current_index (prepare seconds s) = current_index s /\
  listbox_selection (prepare seconds s) = listbox_selection s /\
  _countdown_seconds_left (prepare seconds s) = seconds /\
  progress_maximum (prepare seconds s) = seconds.
Proof. unfold prepare, _cancel_timers. destruct (_after_id s); repeat split. Qed.

Lemma count_down_facts s :
  settings (count_down s) = settings s /\
  current_index (count_down s) = current_index s /\
  listbox_selection (count_down s) = listbox_selection s.
Proof. repeat split. Qed.

Lemma expire_facts s :
  settings (expire s) = settings s /\
  current_index (expire s) = current_index s /\
  listbox_selection (expire s) = listbox_selection s.
Proof. repeat split. Qed.

Lemma settings_ticking s s' : settings s' = settings s -> ticking s' = ticking s.
Proof. unfold settings, ticking. intros H. congruence. Qed.

Lemma settings_interval s s' :
  settings s' = settings s -> interval_seconds s' = interval_seconds s.
Proof. unfold settings. intros H. congruence. Qed.

Lemma settings_filtered s s' :
  settings s' = settings s -> filtered_files s' = filtered_files s.
Proof. unfold settings. intros H. congruence. Qed.

Lemma settings_flags s s' :
  settings s' = settings s -> is_running s' = is_running s /\ is_paused s' = is_paused s.
Proof. unfold settings. intros H. split; congruence. Qed.

Lemma shown_settings s s1 :
  shown (_cancel_timers s) s1 ->
  settings s1 = settings s /\ current_index s1 = current_index s.
Proof.
  intros ((Hs & Hi & _) & _).
  destruct (_cancel_timers_settings s) as (Hs' & Hi' & _).
  split; congruence.
Qed.

Section Returns.

Variable env : Env.

Lemma _play_current_returns next s :
  interval_ok s ->
  exists s', _play_current env next s = Returned s' /\
             settings s' = settings s /\ current_index s' = current_index s.
Proof.
  intros Hok. apply _play_current_post.
  - intros s1 H1. exists s1. split; [reflexivity | now apply shown_settings].
  - intros s1 seconds H1 Hsec.
    apply shown_settings in H1 as [Hs Hi].
    destruct (prepare_facts seconds s1) as (Ps & Pi & _ & Pl & _).
    rewrite _tick_countdown_cases.
    assert (Ht : ticking (prepare seconds s1) = ticking s).
    { rewrite (settings_ticking _ _ Ps). now apply settings_ticking. }
    rewrite Ht. destruct (ticking s) eqn:Hticking; cbn [negb].
    + rewrite Pl. destruct (seconds <=? 0) eqn:Hle.
      * apply Z.leb_le in Hle. specialize (Hok Hticking). specialize (Hsec Hok). lia.
      * eexists. split; [reflexivity|].
        destruct (count_down_facts (prepare seconds s1)) as (Cs & Ci & _).
        split; congruence.
    + eexists. split; [reflexivity|]. split; congruence.
Qed.

(** The index [play_next] and [play_prev] move to. *)
Definition next_choice (s : State) : State :=
  if shuffle s then pick_random env s else step_forward s.

Definition prev_choice (s : State) : State :=
  if shuffle s then pick_random env s else step_backward s.

Lemma choice_settings s :
  settings (next_choice s) = settings s /\ settings (prev_choice s) = settings s.
Proof.
  unfold next_choice, prev_choice, pick_random, step_forward, step_backward.
  destruct (shuffle s), (current_index s); repeat split.
Qed.

Lemma is_empty_false {A} (l : list A) : l <> [] -> is_empty l = false.
Proof. destruct l; [congruence | reflexivity]. Qed.

Lemma play_next_returns limit s :
  interval_ok s -> filtered_files s <> [] ->
  exists s', play_next env (S limit) s = Returned s' /\
             settings s' = settings s /\
             current_index s' = current_index (next_choice s).
Proof.
  intros Hok Hne. cbn [play_next]. rewrite (is_empty_false _ Hne).
  destruct (choice_settings s) as [Hn _].
  destruct (_play_current_returns (play_next env limit) (next_choice s)) as (s' & E & Hs & Hi).
  { unfold interval_ok. rewrite (settings_ticking _ _ Hn), (settings_interval _ _ Hn).
    exact Hok. }
  exists s'. split; [exact E|]. split; congruence.
Qed.

Lemma play_prev_returns limit s :
  interval_ok s -> filtered_files s <> [] ->
  exists s', play_prev env (S limit) s = Returned s' /\
             settings s' = settings s /\
             current_index s' = current_index (prev_choice s).
Proof.
  intros Hok Hne. cbn [play_prev]. rewrite (is_empty_false _ Hne).
  destruct (choice_settings s) as [_ Hp].
  destruct (_play_current_returns (play_next env limit) (prev_choice s)) as (s' & E & Hs & Hi).
  { unfold interval_ok. rewrite (settings_ticking _ _ Hp), (settings_interval _ _ Hp).
    exact Hok. }
  exists s'. split; [exact E|]. split; congruence.
Qed.

End Returns.

(** ** What survives a call, however it ends

    [play_next] may re-enter itself and may end in [RecursionError]; the
    attributes gathered in [settings] are the same afterwards either way. *)

Section Preserved.

Variable env : Env.

Lemma _tick_countdown_settings next s :
  (forall x, settings (state_of (next x)) = settings x) ->
  settings (state_of (_tick_countdown next s)) = settings s.
Proof.
  intros Hnext. rewrite _tick_countdown_cases.
  destruct (negb (ticking s)); [reflexivity|].
  destruct (_countdown_seconds_left s <=? 0); [|reflexivity].
  now rewrite Hnext.
Qed.

Lemma _play_current_settings next s :
  (forall x, settings (state_of (next x)) = settings x) ->
  settings (state_of (_play_current env next s)) = settings s.
Proof.
  intros Hnext. apply _play_current_post.
  - intros s1 H1. now apply shown_settings.
  - intros s1 seconds H1 _. rewrite _tick_countdown_settings by assumption.
    destruct (prepare_facts seconds s1) as (Ps & _).
    apply shown_settings in H1 as [Hs _]. congruence.
Qed.

Lemma play_next_settings limit s :
  settings (state_of (play_next env limit s)) = settings s.
Proof.
  revert s. induction limit as [|limit IH]; intros s; [reflexivity|].
  cbn [play_next]. destruct (is_empty (filtered_files s)); [reflexivity|].
  rewrite _play_current_settings by exact IH.
  apply (choice_settings env s).
Qed.

Lemma play_prev_settings limit s :
  settings (state_of (play_prev env limit s)) = settings s.
Proof.
  destruct limit as [|limit]; [reflexivity|].
  cbn [play_prev]. destruct (is_empty (filtered_files s)); [reflexivity|].
  rewrite _play_current_settings by apply play_next_settings.
  apply (choice_settings env s).
Qed.

Lemma fire_settings limit id s :
  settings (state_of (fire env limit id s)) = settings s.
Proof.
  unfold fire. destruct (find_timer id s) as [t|]; [|reflexivity].
  destruct (callback t).
  - now rewrite _tick_countdown_settings by apply play_next_settings.
  - now rewrite play_next_settings.
Qed.

Lemma _on_list_double_settings limit s :
  settings (state_of (_on_list_double env limit s)) = settings s.
Proof.
  unfold _on_list_double. destruct (listbox_selection s); [reflexivity|].
  now rewrite _play_current_settings by apply play_next_settings.
Qed.

(** [start] on a non-empty view: the player runs and is not paused. *)
Lemma start_flags limit s :
  filtered_files s <> [] ->
  is_running (state_of (start env limit s)) = true /\
  is_paused (state_of (start env limit s)) = false.
Proof.
  intros Hne. unfold start. rewrite (is_empty_false _ Hne). cbn zeta.
  match goal with
  | |- context [_play_current env _ ?x] => set (shown_state := x)
  end.
  pose proof (_play_current_settings (play_next env limit) shown_state
                (play_next_settings limit)) as E.
  apply settings_flags in E as [Hr Hp]. subst shown_state.
  rewrite Hr, Hp.
  unfold init_vlc.
  repeat match goal with
         | |- context [if ?b then _ else _] => destruct b
         end;
    cbn; destruct (current_index s); split; reflexivity.
Qed.

(** The running and paused flags through every helper that does not belong
    to the sequencer. *)
Definition flags (s : State) : bool * bool := (is_running s, is_paused s).

Lemma _refresh_playlist_combo_flags s : flags (_refresh_playlist_combo s) = flags s.
Proof.
  unfold _refresh_playlist_combo.
  destruct (playlist_names (playlists s)); cbn;
    try match goal with |- context [if ?b then _ else _] => destruct b end; reflexivity.
Qed.

Lemma _save_playlists_flags s : flags (_save_playlists env s) = flags s.
Proof.
  unfold _save_playlists. rewrite _refresh_playlist_combo_flags.
  destruct (playlists_writable env); reflexivity.
Qed.

Lemma add_rows_flags name sel s : flags (state_of (add_rows name sel s)) = flags s.
Proof.
  revert s. induction sel as [|i sel IH]; intros s; [reflexivity|].
  cbn [add_rows].
  destruct (filtered_files s !! Z.to_nat i); [|reflexivity].
  destruct (playlists s !! name); [|reflexivity].
  destruct (mem _ _); rewrite IH; reflexivity.
Qed.

Lemma step_flags limit o s :
  (is_paused s = true -> is_running s = true) ->
  is_paused (state_of (step env limit o s)) = true ->
  is_running (state_of (step env limit o s)) = true.
Proof.
  intros Hinv.
  assert (Keep : forall s', flags s' = flags s ->
                            is_paused s' = true -> is_running s' = true).
  { unfold flags. intros s' E. injection E as -> ->. exact Hinv. }
  assert (KeepS : forall s', settings s' = settings s ->
                             is_paused s' = true -> is_running s' = true).
  { intros s' E. apply Keep. unfold flags.
    destruct (settings_flags _ _ E) as [-> ->]. reflexivity. }
  destruct o; cbn [step state_of].
  - (* Start *)
    destruct (filtered_files s) eqn:Hf.
    + unfold start. rewrite Hf. cbn. exact Hinv.
    + intros _. apply start_flags. rewrite Hf. discriminate.
  - (* Stop *)
    unfold stop, _stop_video, _cancel_timers. cbn.
    destruct (_after_id s); cbn;
      match goal with |- context [if ?b then _ else _] => destruct b end;
      cbn; discriminate.
  - (* TogglePause *)
    unfold toggle_pause.
    destruct (is_running s) eqn:Hr; cbn [negb]; [|rewrite Hr; exact Hinv].
    destruct (is_paused s) eqn:Hp.
    + cbn. destruct (_after_id s); unfold after; cbn;
        match goal with |- context [if ?b then _ else _] => destruct b end;
        cbn; discriminate.
    + intros _.
      destruct (_cancel_timers_settings (set_is_paused true s)) as (E & _).
      destruct (settings_flags _ _ E) as [Er _]. cbn in Er.
      match goal with |- context [if ?b then _ else _] => destruct b end;
        cbn; congruence.
  - apply KeepS, play_next_settings.
  - apply KeepS, play_prev_settings.
  - apply Keep. destruct (rows_exist sel s); reflexivity.
  - apply KeepS, _on_list_double_settings.
  - apply Keep. unfold select_folder. destruct choice; [reflexivity|].
    cbn. reflexivity.
  - apply Keep. reflexivity.
  - apply Keep. destruct (mem name (playlist_combo s)); [|reflexivity].
    unfold _apply_selected_playlist. cbn.
    destruct (no_playlist_chosen name); reflexivity.
  - apply Keep. unfold _playlist_new.
    destruct name as [[|c t]|]; try reflexivity.
    destruct (playlists s !! String c t); [reflexivity|].
    now rewrite _refresh_playlist_combo_flags, _save_playlists_flags.
  - apply Keep. unfold _playlist_add_selected.
    destruct (no_playlist_chosen (current_playlist s)); [reflexivity|].
    destruct (listbox_selection s) as [|i sel] eqn:Hsel; [reflexivity|].
    pose proof (add_rows_flags (current_playlist s) (i :: sel) s) as Hrows.
    destruct (add_rows (current_playlist s) (i :: sel) s) as [s'|e s']; cbn in *;
      [|exact Hrows].
    unfold flags in *. cbn.
    change (flags (_save_playlists env s') = (is_running s, is_paused s)).
    now rewrite _save_playlists_flags.
  - apply Keep. unfold _playlist_remove.
    destruct (no_playlist_chosen (current_playlist s)); [reflexivity|].
    destruct confirm; [|reflexivity].
    unfold flags. cbn.
    change (flags (_save_playlists env (set_playlists (delete (current_playlist s) (playlists s)) s))
            = (is_running s, is_paused s)).
    now rewrite _save_playlists_flags.
  - apply Keep. reflexivity.
  - apply Keep. reflexivity.
  - apply Keep. reflexivity.
  - apply Keep. reflexivity.
  - apply KeepS, fire_settings.
Qed.

Lemma run_flags limit ops s :
  (is_paused s = true -> is_running s = true) ->
  is_paused (run env limit ops s) = true -> is_running (run env limit ops s) = true.
Proof.
  revert s. induction ops as [|o ops IH]; intros s Hinv; [exact Hinv|].
  cbn [run]. apply IH. now apply step_flags.
Qed.

End Preserved.

(** ** The current index and the filtered view *)

(** Row [i] exists in the listbox, that is in [filtered_files]. *)
Definition row_ok (s : State) (i : Z) : Prop := 0 <= i < len (filtered_files s).

(** The current index is absent or a row of the filtered view. *)
Definition index_ok (s : State) : Prop :=
  match current_index s with
  | None => True
  | Some i => row_ok s i
  end.

(** The selected rows exist. *)
Definition sel_ok (s : State) : Prop := Forall (row_ok s) (listbox_selection s).

(** The contract of [random.randrange(n)] for a positive [n]. *)
Definition randrange_ok (env : Env) : Prop :=
  forall k n, 0 < n -> 0 <= randrange env k n < n.

Definition view (s : State) := (filtered_files s, current_index s, listbox_selection s).

Lemma view_eq s s' : view s' = view s -> (index_ok s -> index_ok s') /\ (sel_ok s -> sel_ok s').
Proof.
  unfold view, index_ok, sel_ok, row_ok. intros E. injection E as -> -> ->. auto.
Qed.

Lemma rows_exist_sel_ok sel s :
  rows_exist sel s = true -> Forall (row_ok s) sel.
Proof.
  unfold rows_exist. intros H. apply Forall_forall. intros i Hi.
  rewrite forallb_forall in H. apply list_elem_of_In in Hi.
  specialize (H i Hi). apply andb_true_iff in H as [H1 H2].
  apply Z.leb_le in H1. apply Z.ltb_lt in H2. split; assumption.
Qed.

Section View.

Variable env : Env.
Hypothesis Hrandrange : randrange_ok env.

Lemma shown_view s s1 :
  shown (_cancel_timers s) s1 ->
  index_ok s -> sel_ok s -> index_ok s1 /\ sel_ok s1.
Proof.
  intros H Hi Hs.
  destruct (shown_settings _ _ H) as [Es Ei].
  destruct H as (_ & Hsel).
  destruct (_cancel_timers_settings s) as (Cs & Ci & Cl & _).
  pose proof (settings_filtered _ _ Es) as Ef.
  unfold index_ok, sel_ok, row_ok in *. rewrite Ei, Ef. split; [exact Hi|].
  destruct Hsel as [-> | (idx & Hidx & Hrow & ->)].
  - now rewrite Cl.
  - constructor; [|constructor].
    now rewrite (settings_filtered _ _ Cs) in Hrow.
Qed.

Lemma _tick_countdown_view next s :
  (forall x, index_ok x -> sel_ok x ->
             index_ok (state_of (next x)) /\ sel_ok (state_of (next x))) ->
  index_ok s -> sel_ok s ->
  index_ok (state_of (_tick_countdown next s)) /\ sel_ok (state_of (_tick_countdown next s)).
Proof.
  intros Hnext Hi Hs. rewrite _tick_countdown_cases.
  destruct (negb (ticking s)); [now split|].
  destruct (_countdown_seconds_left s <=? 0).
  - apply Hnext; [apply (view_eq s) | apply (view_eq s)]; trivial.
  - split; [apply (view_eq s) | apply (view_eq s)]; trivial.
Qed.

Lemma _play_current_view next s :
  (forall x, index_ok x -> sel_ok x ->
             index_ok (state_of (next x)) /\ sel_ok (state_of (next x))) ->
  index_ok s -> sel_ok s ->
  index_ok (state_of (_play_current env next s)) /\
  sel_ok (state_of (_play_current env next s)).
Proof.
  intros Hnext Hi Hs. apply _play_current_post.
  - intros s1 H1. now apply (shown_view s).
  - intros s1 seconds H1 _.
    destruct (shown_view s s1 H1 Hi Hs) as [Hi1 Hs1].
    assert (E : view (prepare seconds s1) = view s1).
    { destruct (prepare_facts seconds s1) as (Ps & Pi & Pl & _).
      unfold view. now rewrite (settings_filtered _ _ Ps), Pi, Pl. }
    apply _tick_countdown_view; [exact Hnext | |]; now apply (view_eq s1).
Qed.

Lemma len_pos {A} (l : list A) : l <> [] -> 0 < len l.
Proof. unfold len. destruct l; [congruence | cbn; lia]. Qed.

(** Whatever the index was, the one [play_next] and [play_prev] choose on a
    non-empty view is a row of it. *)
Lemma choice_view s :
  filtered_files s <> [] -> sel_ok s ->
  (index_ok (next_choice env s) /\ sel_ok (next_choice env s)) /\
  (index_ok (prev_choice env s) /\ sel_ok (prev_choice env s)).
Proof.
  intros Hne Hs. apply len_pos in Hne.
  unfold next_choice, prev_choice, pick_random, step_forward, step_backward.
  unfold index_ok, sel_ok, row_ok in *.
  destruct (shuffle s); [|destruct (current_index s)]; cbn;
    repeat split; try exact Hs; try lia;
    try (apply Hrandrange; exact Hne);
    try (apply Z.mod_pos_bound; exact Hne).
Qed.

Lemma play_next_view limit s :
  index_ok s -> sel_ok s ->
  index_ok (state_of (play_next env limit s)) /\ sel_ok (state_of (play_next env limit s)).
Proof.
  revert s. induction limit as [|limit IH]; intros s Hi Hs; [now split|].
  cbn [play_next]. destruct (filtered_files s) eqn:Hf; [now split|].
  cbn [is_empty].
  destruct (choice_view s) as [[Ci Cs] _]; [rewrite Hf; discriminate | exact Hs|].
  now apply _play_current_view.
Qed.

Lemma play_next_reindex limit s :
  filtered_files s <> [] -> sel_ok s ->
  index_ok (state_of (play_next env (S limit) s)) /\
  sel_ok (state_of (play_next env (S limit) s)).
Proof.
  intros Hne Hs. cbn [play_next]. rewrite (is_empty_false _ Hne).
  destruct (choice_view s Hne Hs) as [[Ci Cs] _].
  apply _play_current_view; [apply play_next_view | exact Ci | exact Cs].
Qed.

Lemma play_prev_reindex limit s :
  filtered_files s <> [] -> sel_ok s ->
  index_ok (state_of (play_prev env (S limit) s)) /\
  sel_ok (state_of (play_prev env (S limit) s)).
Proof.
  intros Hne Hs. cbn [play_prev]. rewrite (is_empty_false _ Hne).
  destruct (choice_view s Hne Hs) as [_ [Ci Cs]].
  apply _play_current_view; [apply play_next_view | exact Ci | exact Cs].
Qed.


End View.

(** The playlist helpers touch the playlists, the selector and the status
    line; what the sequencer works on stays as it is. *)
Definition sequencer (s : State) :=
  (view s, is_running s, is_paused s, interval_seconds s, clock s).

Lemma _refresh_playlist_combo_sequencer s :
  sequencer (_refresh_playlist_combo s) = sequencer s.
Proof.
  unfold _refresh_playlist_combo.
  destruct (playlist_names (playlists s)); cbn;
    try match goal with |- context [if ?b then _ else _] => destruct b end; reflexivity.
Qed.

Lemma _save_playlists_sequencer env s : sequencer (_save_playlists env s) = sequencer s.
Proof.
  unfold _save_playlists. rewrite _refresh_playlist_combo_sequencer.
  destruct (playlists_writable env); reflexivity.
Qed.

Lemma add_rows_sequencer name sel s :
  sequencer (state_of (add_rows name sel s)) = sequencer s.
Proof.
  revert s. induction sel as [|i sel IH]; intros s; [reflexivity|].
  cbn [add_rows].
  destruct (filtered_files s !! Z.to_nat i); [|reflexivity].
  destruct (playlists s !! name); [|reflexivity].
  destruct (mem _ _); rewrite IH; reflexivity.
Qed.

Lemma _playlist_new_sequencer env name s :
  sequencer (_playlist_new env name s) = sequencer s.
Proof.
  unfold _playlist_new.
  destruct name as [[|c t]|]; try reflexivity.
  destruct (playlists s !! String c t); [reflexivity|].
  now rewrite _refresh_playlist_combo_sequencer, _save_playlists_sequencer.
Qed.

Lemma _playlist_add_selected_sequencer env s :
  sequencer (state_of (_playlist_add_selected env s)) = sequencer s.
Proof.
  unfold _playlist_add_selected.
  destruct (no_playlist_chosen (current_playlist s)); [reflexivity|].
  destruct (listbox_selection s) as [|i sel] eqn:Hsel; [reflexivity|].
  pose proof (add_rows_sequencer (current_playlist s) (i :: sel) s) as Hrows.
  destruct (add_rows (current_playlist s) (i :: sel) s) as [s'|e s']; cbn [state_of] in *;
    [|exact Hrows].
  rewrite <- Hrows.
  change (sequencer (_save_playlists env s') = sequencer s').
  apply _save_playlists_sequencer.
Qed.

Lemma _playlist_remove_sequencer env confirm s :
  sequencer (_playlist_remove env confirm s) = sequencer s.
Proof.
  unfold _playlist_remove.
  destruct (no_playlist_chosen (current_playlist s)); [reflexivity|].
  destruct confirm; [|reflexivity].
  change (sequencer (_save_playlists env (set_playlists (delete (current_playlist s) (playlists s)) s))
          = sequencer s).
  now rewrite _save_playlists_sequencer.
Qed.

Lemma sequencer_view s s' : sequencer s' = sequencer s -> view s' = view s.
Proof. unfold sequencer. intros E. congruence. Qed.

(** [start] on a non-empty view is [_play_current] on the object with the
    flags set and an absent index replaced by [0]. *)
Lemma start_shape env limit s :
  filtered_files s <> [] ->
  exists pre,
    start env limit s = _play_current env (play_next env limit) pre /\
    filtered_files pre = filtered_files s /\
    listbox_selection pre = listbox_selection s /\
    current_index pre = Some (default 0 (current_index s)) /\
    is_running pre = true /\ is_paused pre = false /\
    interval_seconds pre = interval_seconds s /\
    clock pre = clock s.
Proof.
  intros Hne. unfold start. rewrite (is_empty_false _ Hne). cbn zeta.
  eexists. split; [reflexivity|].
  unfold init_vlc.
  repeat match goal with
         | |- context [if ?b then _ else _] =>
             match type of b with bool => destruct b end
         end; cbn; destruct (current_index s) eqn:E; cbn; rewrite ?E; repeat split.
Qed.

Section ViewSteps.

Variable env : Env.
Hypothesis Hrandrange : randrange_ok env.

Lemma _tick_countdown_sel next s :
  (forall x, sel_ok x -> sel_ok (state_of (next x))) ->
  sel_ok s -> sel_ok (state_of (_tick_countdown next s)).
Proof.
  intros Hnext Hs. rewrite _tick_countdown_cases.
  destruct (negb (ticking s)); [exact Hs|].
  destruct (_countdown_seconds_left s <=? 0).
  - apply Hnext. now apply (view_eq s).
  - now apply (view_eq s).
Qed.

Lemma _play_current_sel next s :
  (forall x, sel_ok x -> sel_ok (state_of (next x))) ->
  sel_ok s -> sel_ok (state_of (_play_current env next s)).
Proof.
  intros Hnext Hs.
  assert (Hshown : forall s1, shown (_cancel_timers s) s1 -> sel_ok s1).
  { intros s1 H. destruct (shown_settings _ _ H) as [Es _].
    destruct H as (_ & Hsel).
    destruct (_cancel_timers_settings s) as (Cs & _ & Cl & _).
    pose proof (settings_filtered _ _ Es) as Ef.
    unfold sel_ok, row_ok in *. rewrite Ef.
    destruct Hsel as [-> | (idx & _ & Hrow & ->)].
    - now rewrite Cl.
    - constructor; [|constructor]. now rewrite (settings_filtered _ _ Cs) in Hrow. }
  apply _play_current_post.
  - exact Hshown.
  - intros s1 seconds H1 _.
    apply _tick_countdown_sel; [exact Hnext|].
    apply (view_eq s1); [|now apply Hshown].
    destruct (prepare_facts seconds s1) as (Ps & Pi & Pl & _).
    unfold view. now rewrite (settings_filtered _ _ Ps), Pi, Pl.
Qed.

Lemma play_next_sel limit s : sel_ok s -> sel_ok (state_of (play_next env limit s)).
Proof.
  intros Hs. destruct limit as [|limit]; [exact Hs|].
  destruct (filtered_files s) eqn:Hf.
  - cbn [play_next]. now rewrite Hf.
  - apply (play_next_reindex env Hrandrange); [rewrite Hf; discriminate | exact Hs].
Qed.

Lemma play_prev_sel limit s : sel_ok s -> sel_ok (state_of (play_prev env limit s)).
Proof.
  intros Hs. destruct limit as [|limit]; [exact Hs|].
  destruct (filtered_files s) eqn:Hf.
  - cbn [play_prev]. now rewrite Hf.
  - apply (play_prev_reindex env Hrandrange); [rewrite Hf; discriminate | exact Hs].
Qed.

Lemma sel_ok_nil s : listbox_selection s = [] -> sel_ok s.
Proof. unfold sel_ok. intros ->. constructor. Qed.

(** Every action leaves the selected rows inside the listbox. *)
Lemma step_sel limit o s : sel_ok s -> sel_ok (state_of (step env limit o s)).
Proof.
  intros Hs.
  assert (Keep : forall s', view s' = view s -> sel_ok s') by (intros s' E; now apply (view_eq s)).
  destruct o; cbn [step state_of].
  - destruct (filtered_files s) eqn:Hf.
    { unfold start. rewrite Hf. now apply Keep. }
    destruct (start_shape env limit s) as (pre & -> & Ef & El & _);
      [rewrite Hf; discriminate|].
    apply _play_current_sel; [apply play_next_sel|].
    unfold sel_ok, row_ok in *. now rewrite Ef, El.
  - apply Keep. unfold stop, _stop_video, _cancel_timers. cbn.
    destruct (_after_id s); cbn;
      match goal with |- context [if ?b then _ else _] => destruct b end; reflexivity.
  - apply Keep. unfold toggle_pause, _cancel_timers, after.
    destruct (is_running s), (is_paused s); cbn; try reflexivity;
      destruct (_after_id s); cbn;
      match goal with |- context [if ?b then _ else _] => destruct b end; reflexivity.
  - now apply play_next_sel.
  - now apply play_prev_sel.
  - destruct (rows_exist sel s) eqn:E; [|exact Hs].
    unfold sel_ok, row_ok. cbn. now apply rows_exist_sel_ok.
  - unfold _on_list_double. destruct (listbox_selection s) eqn:E; [exact Hs|].
    apply _play_current_sel; [apply play_next_sel|]. exact Hs.
  - unfold select_folder. destruct choice; [exact Hs|]. apply sel_ok_nil. reflexivity.
  - apply sel_ok_nil. reflexivity.
  - destruct (mem name (playlist_combo s)); [|exact Hs].
    unfold _apply_selected_playlist. cbn.
    destruct (no_playlist_chosen name); [exact Hs|]. apply sel_ok_nil. reflexivity.
  - apply Keep, sequencer_view, _playlist_new_sequencer.
  - apply Keep, sequencer_view, _playlist_add_selected_sequencer.
  - apply Keep, sequencer_view, _playlist_remove_sequencer.
  - now apply Keep.
  - now apply Keep.
  - now apply Keep.
  - now apply Keep.
  - unfold fire. destruct (find_timer id s); [|exact Hs].
    destruct (callback t).
    + apply _tick_countdown_sel; [apply play_next_sel | now apply Keep].
    + apply play_next_sel. now apply Keep.
Qed.



End ViewSteps.

Lemma init_view env doc :
  view (init env doc) = ([], None, []).
Proof.
  unfold init, _load_playlists.
  match goal with
  | |- view (_refresh_playlist_combo ?x) = _ =>
      rewrite (sequencer_view x _ (_refresh_playlist_combo_sequencer x))
  end.
  reflexivity.
Qed.

(** From start-up on the selected rows exist. *)
Lemma reachable_sel_ok env limit ops doc :
  randrange_ok env -> sel_ok (run env limit ops (init env doc)).
Proof.
  intros Hrandrange.
  assert (G : forall ops s, sel_ok s -> sel_ok (run env limit ops s)).
  { clear ops. induction ops as [|o ops IH]; intros s Hs; [exact Hs|].
    cbn [run]. apply IH. now apply step_sel. }
  apply G. apply sel_ok_nil.
  pose proof (init_view env doc) as E. unfold view in E. congruence.
Qed.



(** ** The queue of delayed callbacks

    At most one callback is pending, and it is the one [_after_id] names; the
    identifiers handed out so far are below [after_counter]. *)
Definition timers_ok (s : State) : Prop :=
  pending s = [] \/
  exists t, pending s = [t] /\ _after_id s = Some (tid t) /\ (tid t < after_counter s)%nat.

Lemma _cancel_timers_pending s :
  timers_ok s ->
  pending (_cancel_timers s) = [] /\ _after_id (_cancel_timers s) = None /\
  after_counter (_cancel_timers s) = after_counter s.
Proof.
  intros [Hnil | (t & Ht & Hid & _)]; unfold _cancel_timers.
  - destruct (_after_id s) eqn:E; cbn; rewrite ?Hnil; repeat split; assumption.
  - rewrite Hid. cbn. rewrite Ht. cbn.
    rewrite decide_False by (intros H; now apply H). repeat split.
Qed.

(** *** Pause and resume *)

Lemma pause_facts env s :
  is_running s = true -> is_paused s = false -> timers_ok s ->
  let p := toggle_pause env s in
  is_running p = true /\ is_paused p = true /\ pending p = [] /\ _after_id p = None /\
  (_after_id s <> None -> _countdown_seconds_left p = 0) /\
  current_index p = current_index s /\ after_counter p = after_counter s /\
  interval_seconds p = interval_seconds s.
Proof.
  intros Hrun Hnp Hok.
  destruct (_cancel_timers_pending (set_is_paused true s)) as (Hp & Hid & Hc);
    [exact Hok|].
  destruct (_cancel_timers_settings (set_is_paused true s)) as (Hs & Hi & _).
  assert (Hleft : _after_id s <> None ->
                  _countdown_seconds_left (_cancel_timers (set_is_paused true s)) = 0).
  { unfold _cancel_timers. cbn. destruct (_after_id s); [reflexivity | congruence]. }
  assert (Hflags := settings_flags _ _ Hs). cbn in Hflags. destruct Hflags as [Hr' Hp'].
  assert (Hint := settings_interval _ _ Hs). cbn in Hint.
  cbn in Hc, Hi. clear Hs.
  cbn zeta. unfold toggle_pause. rewrite Hrun, Hnp. cbn [negb].
  revert Hp Hid Hc Hi Hleft Hr' Hp' Hint.
  generalize (_cancel_timers (set_is_paused true s)). intros c Hp Hid Hc Hi Hleft Hr' Hp' Hint.
  destruct (vlc_player c && VLC_AVAILABLE env); cbn; repeat split; try congruence; assumption.
Qed.

Lemma resume_facts env q :
  is_running q = true -> is_paused q = true -> pending q = [] -> _after_id q = None ->
  let r := toggle_pause env q in
  is_running r = true /\ is_paused r = false /\
  pending r = [{| tid := after_counter q; delay_ms := interval_seconds q * 1000;
                  callback := CbPlayNext |}] /\
  _after_id r = Some (after_counter q) /\
  current_index r = current_index q.
Proof.
  intros Q1 Q2 Q3 Q4. cbn zeta. unfold toggle_pause. rewrite Q1, Q2. cbn [negb].
  cbn. rewrite Q4. unfold after. cbn. rewrite Q3.
  destruct (vlc_player q && VLC_AVAILABLE env); repeat split; assumption.
Qed.

(** ** The countdown *)














Section Countdown.

Variable env : Env.











End Countdown.

(** *** An armed countdown, tick by tick *)


(** The event loop fires the callback that is due. *)
Definition fire_pending (env : Env) (limit : nat) (s : State) : Outcome :=
  match pending s with
  | t :: _ => fire env limit (tid t) s
  | [] => Returned s
  end.

(** [n] firings in a row. *)
Fixpoint ticks (env : Env) (limit : nat) (n : nat) (s : State) : State :=
  match n with
  | O => s
  | S n' => ticks env limit n' (state_of (fire_pending env limit s))
  end.




Section Armed.

Variable env : Env.
Variable limit : nat.






End Armed.

(** *** At most one pending callback, whatever the interval *)


Lemma timers_ok_idle s : pending s = [] -> timers_ok s.
Proof. now left. Qed.

Section Timers.

Variable env : Env.










End Timers.

(** ** The search filter *)

Lemma contains_empty s : Py.contains "" s = true.
Proof. destruct s; reflexivity. Qed.

Lemma filter_all {A} (l : list A) : List.filter (fun _ => true) l = l.
Proof. induction l as [|x l IH]; [reflexivity | cbn; now rewrite IH]. Qed.

Lemma filter_idem {A} (f : A -> bool) (l : list A) :
  List.filter f (List.filter f l) = List.filter f l.
Proof.
  induction l as [|x l IH]; [reflexivity|].
  cbn. destruct (f x) eqn:E; [cbn; rewrite E; now rewrite IH | exact IH].
Qed.

(** The filter as the specification words it: keep the files whose name
    contains the query, both in lower case. *)
Definition matches (query : string) (f : string) : bool :=
  Py.contains (Py.lower query) (Py.lower (Py.basename f)).

Lemma search_filter_matches text fs :
  search_filter text fs = List.filter (matches (Py.strip text)) fs.
Proof.
  unfold search_filter, matches.
  destruct (Py.lower (Py.strip text)) eqn:E; [|reflexivity].
  rewrite <- (filter_all fs) at 1.
  apply filter_ext. intros f. now rewrite contains_empty.
Qed.

Lemma is_white_lower c : Py.is_white (Py.lower_char c) = Py.is_white c.
Proof. destruct c as [[] [] [] [] [] [] [] []]; reflexivity. Qed.

Lemma lower_char_idem c : Py.lower_char (Py.lower_char c) = Py.lower_char c.
Proof. destruct c as [[] [] [] [] [] [] [] []]; reflexivity. Qed.

Lemma lower_idem s : Py.lower (Py.lower s) = Py.lower s.
Proof. induction s as [|c s IH]; [reflexivity | cbn; now rewrite lower_char_idem, IH]. Qed.

Lemma lower_lstrip s : Py.lower (Py.lstrip s) = Py.lstrip (Py.lower s).
Proof.
  induction s as [|c s IH]; [reflexivity|].
  cbn. rewrite is_white_lower. destruct (Py.is_white c); [exact IH | reflexivity].
Qed.

Lemma lower_rstrip s : Py.lower (Py.rstrip s) = Py.rstrip (Py.lower s).
Proof.
  induction s as [|c s IH]; [reflexivity|].
  cbn. rewrite <- IH, is_white_lower.
  destruct (Py.rstrip s); [destruct (Py.is_white c) |]; reflexivity.
Qed.

Lemma lower_strip s : Py.lower (Py.strip s) = Py.strip (Py.lower s).
Proof. unfold Py.strip. now rewrite lower_rstrip, lower_lstrip. Qed.

(** ** The countdown of a looping video *)

(** The countdown armed for a looping video lasts the clip's whole seconds
    when VLC reports a duration of a second or more, and the interval
    otherwise. *)
Lemma video_loop_seconds_cases (env : Env) (path : string) (s : State) :
  (forall ms, media_duration env path = Some ms -> 1000 <= ms ->
              video_loop_seconds env path s = ms / 1000) /\
  (forall ms, media_duration env path = Some ms -> ms < 1000 ->
              video_loop_seconds env path s = interval_seconds s) /\
  (media_duration env path = None -> video_loop_seconds env path s = interval_seconds s).
Proof.
  unfold video_loop_seconds. repeat split.
  - intros ms -> Hms.
    assert (1 <= ms / 1000) by (apply Z.div_le_lower_bound; lia).
    destruct (0 <? ms) eqn:E; [|apply Z.ltb_ge in E; lia].
    destruct (ms / 1000 =? 0) eqn:E0; [apply Z.eqb_eq in E0; lia|].
    destruct (ms / 1000 <=? 0) eqn:E1; [apply Z.leb_le in E1; lia|]. reflexivity.
  - intros ms -> Hms.
    destruct (0 <? ms) eqn:E; [|reflexivity].
    apply Z.ltb_lt in E.
    assert (ms / 1000 = 0) as -> by (apply Z.div_small; lia). reflexivity.
  - intros ->. reflexivity.
Qed.

(** ** A small world to run the player in

    Three playable files and a text file under [/memes], a VLC binding that
    works and reports clips of 3.2 seconds, and a [random] module whose
    [k]-th answer to [randrange(n)] is [(k + 1) mod n]. *)

Definition demo_env : Env :=
  {| randrange := fun k n => (Z.of_nat k + 1) mod n;
     path_exists := fun p => negb (String.eqb p "/memes/gone.png");
     walk := fun _ => [("/memes", "c.jpg"); ("/memes", "a.png");
                       ("/memes", "notes.txt"); ("/memes", "b.mp4")];
     listdir_sfx := Some [];
     VLC_AVAILABLE := true;
     WINSOUND_AVAILABLE := false;
     vlc_starts := true;
     media_duration := fun _ => Some 3200;
     image_opens := fun _ => true;
     video_opens := fun _ => true;
     playlists_writable := true |}.

Definition demo_init : State := init demo_env None.

(** The folder is loaded, shuffle is switched off, the interval is 5 seconds
    and Start has been pressed: [a.png] is shown. *)
Definition demo_running : State :=
  run demo_env 8 [SelectFolder "/memes"; SetShuffle false; SetInterval 5; Start] demo_init.

(** The same with shuffle left on. *)
Definition demo_shuffling : State :=
  run demo_env 8 [SelectFolder "/memes"; SetInterval 5; Start] demo_init.

Example demo_running_view :
  filtered_files demo_running = ["/memes/a.png"; "/memes/b.mp4"; "/memes/c.jpg"] /\
  current_index demo_running = Some 0 /\
  image_panel demo_running = Picture "/memes/a.png" /\
  _countdown_seconds_left demo_running = 4 /\
  pending demo_running = [{| tid := 0; delay_ms := 1000; callback := CbTickCountdown |}].
Proof. vm_compute. repeat split. Qed.

(** * The specification, statement by statement *)

(** ** C1: sequential selection *)

(** C1. In sequential mode, on a non-empty catalog, [play_next] returns with
    the current index at [(current + 1) mod length] and [play_prev] with
    [(current - 1 + length) mod length]; when the index is absent both set it
    to [0].  The catalog itself is left as it is.  [interval_ok] asks for a
    positive interval on a running, unpaused player (the interval field
    ranges over 5..3600): with it the countdown armed for the new item is not
    over at once and the call returns. *)
Theorem sequential_next_prev (env : Env) (limit : nat) (s : State) :
  filtered_files s <> [] ->
  shuffle s = false ->
  interval_ok s ->
  exists sn sp,
    play_next env (S limit) s = Returned sn /\
    play_prev env (S limit) s = Returned sp /\
    filtered_files sn = filtered_files s /\
    filtered_files sp = filtered_files s /\
    current_index sn =
      Some (match current_index s with
            | None => 0
            | Some i => (i + 1) mod len (filtered_files s)
            end) /\
    current_index sp =
      Some (match current_index s with
            | None => 0
            | Some i => (i - 1 + len (filtered_files s)) mod len (filtered_files s)
            end).
Proof.
  intros Hne Hseq Hok.
  destruct (play_next_returns env limit s Hok Hne) as (sn & En & Sn & In).
  destruct (play_prev_returns env limit s Hok Hne) as (sp & Ep & Sp & Ip).
  exists sn, sp.
  split; [exact En|]. split; [exact Ep|].
  split; [now apply settings_filtered|]. split; [now apply settings_filtered|].
  unfold next_choice, step_forward in In. unfold prev_choice, step_backward in Ip.
  rewrite Hseq in In, Ip.
  split.
  - rewrite In. destruct (current_index s); reflexivity.
  - rewrite Ip. destruct (current_index s) as [i|]; [|reflexivity].
    cbn. f_equal.
    replace (i - 1 + len (filtered_files s)) with (i - 1 + 1 * len (filtered_files s)) by lia.
    now rewrite Z_mod_plus_full.
Qed.

Lemma sequential_next_prev_witness :
  exists sn sp,
    play_next demo_env 1 demo_running = Returned sn /\
    play_prev demo_env 1 demo_running = Returned sp /\
    filtered_files sn = filtered_files demo_running /\
    filtered_files sp = filtered_files demo_running /\
    current_index sn = Some 1 /\
    current_index sp = Some 2.
Proof.
  apply (sequential_next_prev demo_env 0 demo_running).
  - vm_compute. discriminate.
  - reflexivity.
  - intros _. vm_compute. reflexivity.
Defined.

(** *** A countdown that is over at once

    With an interval of zero on a running player every countdown armed by
    [_play_current] is over at its first tick, which calls [play_next] again:
    the call does not return, it ends in [RecursionError] whatever the limit.
    This is why the statements on [play_next] ask for [interval_ok]. *)
Example zero_interval_recursion :
  exists s, play_next demo_env 8 (set_interval_seconds 0 demo_running) = Raised RecursionError s.
Proof. eexists. vm_compute. reflexivity. Qed.

(** ** C2: the countdown *)

(** The countdown of [demo_running] one tick before it is over: four ticks
    have fired, no second is left, the fifth tick is pending. *)
Definition demo_last_second : State := ticks demo_env 8 4 demo_running.




Example demo_expiry_advances :
  current_index (state_of (fire_pending demo_env 8 demo_last_second)) = Some 1 /\
  image_panel (state_of (fire_pending demo_env 8 demo_last_second)) = VideoSurface "/memes/b.mp4".
Proof. vm_compute. split; reflexivity. Qed.

(** ** C3: pause and resume *)

(** C3. On a running player [toggle_pause] (pause) cancels the pending
    callback: the queue is empty, [_after_id] is cleared and the seconds the
    countdown had left are set to zero.  The next [toggle_pause] (resume)
    registers one fresh callback of [play_next], due after the whole of the
    interval as it is then ([z], in milliseconds), whatever was left of the
    countdown when the player was paused.  [timers_ok] holds for every object
    reached from start-up ([reachable_timers_ok]). *)
Theorem pause_discards_resume_rearms (env : Env) (s : State) (z : Z) :
  is_running s = true ->
  is_paused s = false ->
  timers_ok s ->
  let p := toggle_pause env s in
  let r := toggle_pause env (set_interval_seconds z p) in
  (is_running p = true /\ is_paused p = true /\
   pending p = [] /\ _after_id p = None /\
   (_after_id s <> None -> _countdown_seconds_left p = 0) /\
   current_index p = current_index s) /\
  (is_running r = true /\ is_paused r = false /\
   pending r = [{| tid := after_counter s; delay_ms := z * 1000; callback := CbPlayNext |}] /\
   _after_id r = Some (after_counter s) /\
   current_index r = current_index s) /\
  pending (toggle_pause env p) =
    [{| tid := after_counter s; delay_ms := interval_seconds s * 1000; callback := CbPlayNext |}].
Proof.
  intros Hrun Hnp Hok.
  destruct (pause_facts env s Hrun Hnp Hok) as (P1 & P2 & P3 & P4 & P5 & P6 & P7 & P8).
  cbn zeta. split; [repeat split; assumption|]. split.
  - destruct (resume_facts env (set_interval_seconds z (toggle_pause env s)))
      as (R1 & R2 & R3 & R4 & R5); try assumption.
    cbn in R3, R4, R5. rewrite P7 in R3, R4. repeat split; congruence.
  - destruct (resume_facts env (toggle_pause env s)) as (_ & _ & R3 & _); try assumption.
    rewrite P7, P8 in R3. exact R3.
Qed.

Lemma pause_discards_resume_rearms_witness :
  let p := toggle_pause demo_env demo_running in
  let r := toggle_pause demo_env (set_interval_seconds 60 p) in
  (is_running p = true /\ is_paused p = true /\
   pending p = [] /\ _after_id p = None /\
   (_after_id demo_running <> None -> _countdown_seconds_left p = 0) /\
   current_index p = current_index demo_running) /\
  (is_running r = true /\ is_paused r = false /\
   pending r = [{| tid := 1; delay_ms := 60 * 1000; callback := CbPlayNext |}] /\
   _after_id r = Some 1%nat /\
   current_index r = current_index demo_running) /\
  pending (toggle_pause demo_env p) =
    [{| tid := 1; delay_ms := 5 * 1000; callback := CbPlayNext |}].
Proof.
  apply (pause_discards_resume_rearms demo_env demo_running 60).
  - reflexivity.
  - reflexivity.
  - right. eexists. vm_compute. repeat split. lia.
Defined.

(** ** C4: the current index and the filtered view *)






(** ** C5: shuffle mode *)

(** C5. With shuffle on and a non-empty catalog, [play_prev] is [play_next]:
    the same call on the same object gives the same outcome.  The new index
    is what [random.randrange(len(filtered_files))] returned, unchanged, so
    it lies in [0, length) and is distributed as [randrange] is, uniformly by
    the contract of Python's [random] module; the direction plays no part. *)
Theorem shuffle_prev_is_next (env : Env) (limit : nat) (s : State) :
  shuffle s = true ->
  filtered_files s <> [] ->
  interval_ok s ->
  (forall k n, 0 < n -> 0 <= randrange env k n < n) ->
  play_prev env (S limit) s = play_next env (S limit) s /\
  exists s',
    play_next env (S limit) s = Returned s' /\
    current_index s' = Some (randrange env (draws s) (len (filtered_files s))) /\
    0 <= randrange env (draws s) (len (filtered_files s)) < len (filtered_files s) /\
    filtered_files s' = filtered_files s.
Proof.
  intros Hsh Hne Hok Hrange. split.
  - cbn [play_prev play_next]. now rewrite Hsh.
  - destruct (play_next_returns env limit s Hok Hne) as (s' & E & Hs & Hi).
    exists s'. split; [exact E|].
    unfold next_choice in Hi. rewrite Hsh in Hi.
    split; [exact Hi|]. split; [|now apply settings_filtered].
    apply Hrange. unfold len. destruct (filtered_files s); [congruence | cbn; lia].
Qed.

Lemma shuffle_prev_is_next_witness :
  play_prev demo_env 1 demo_shuffling = play_next demo_env 1 demo_shuffling /\
  exists s',
    play_next demo_env 1 demo_shuffling = Returned s' /\
    current_index s' = Some 1 /\
    0 <= 1 < 3 /\
    filtered_files s' = filtered_files demo_shuffling.
Proof.
  apply (shuffle_prev_is_next demo_env 0 demo_shuffling).
  - reflexivity.
  - vm_compute. discriminate.
  - intros _. vm_compute. reflexivity.
  - intros k n Hn. cbn. apply Z.mod_pos_bound. exact Hn.
Defined.

(** ** C6: the empty catalog *)

(** C6. With nothing in the filtered view, [play_next] and [play_prev] return
    the object as it was (so an absent index stays absent and nothing is
    shown), and [start] only adds the "No playable files loaded" warning to
    the message boxes shown: a stopped player stays stopped. *)
Theorem empty_catalog_noop (env : Env) (limit : nat) (s : State) :
  filtered_files s = [] ->
  play_next env (S limit) s = Returned s /\
  play_prev env (S limit) s = Returned s /\
  start env limit s = Returned (set_dialogs (WarnNoFiles :: dialogs s) s) /\
  is_running (state_of (start env limit s)) = is_running s /\
  is_paused (state_of (start env limit s)) = is_paused s /\
  current_index (state_of (start env limit s)) = current_index s /\
  image_panel (state_of (start env limit s)) = image_panel s /\
  clock (state_of (start env limit s)) = clock s.
Proof.
  intros Hempty. unfold start. cbn [play_next play_prev].
  rewrite Hempty. cbn. repeat split.
Qed.

Lemma empty_catalog_noop_witness :
  play_next demo_env 1 demo_init = Returned demo_init /\
  play_prev demo_env 1 demo_init = Returned demo_init /\
  start demo_env 0 demo_init = Returned (set_dialogs [WarnNoFiles] demo_init) /\
  is_running (state_of (start demo_env 0 demo_init)) = false /\
  is_paused (state_of (start demo_env 0 demo_init)) = false /\
  current_index (state_of (start demo_env 0 demo_init)) = None /\
  image_panel (state_of (start demo_env 0 demo_init)) = Blank /\
  clock (state_of (start demo_env 0 demo_init)) = clock demo_init.
Proof.
  apply (empty_catalog_noop demo_env 0 demo_init).
  reflexivity.
Defined.

(** ** C7: the search filter *)

(** C7. Filtering with the empty query (or with blanks only, as two spaces)
    gives the catalog back, filtering twice with the same query is filtering
    once, and the filter keeps, in order, exactly the files whose base name
    contains the stripped query when both are put in lower case; putting the
    query in lower case first changes nothing.  [_apply_search_filter] stores
    that list in [filtered_files], leaves the catalog [files] alone, and
    applying it twice is applying it once. *)
Theorem search_filter_identity_idempotent (text : string) (fs : list string) (s : State) :
  search_filter "" fs = fs /\
  search_filter "  " fs = fs /\
  search_filter text (search_filter text fs) = search_filter text fs /\
  search_filter text fs = List.filter (matches (Py.strip text)) fs /\
  (forall f, In f (search_filter text fs) <->
             In f fs /\ Py.contains (Py.lower (Py.strip text)) (Py.lower (Py.basename f)) = true) /\
  search_filter (Py.lower text) fs = search_filter text fs /\
  filtered_files (_apply_search_filter s) = search_filter (search_var s) (files s) /\
  files (_apply_search_filter s) = files s /\
  _apply_search_filter (_apply_search_filter s) = _apply_search_filter s.
Proof.
  split; [reflexivity|]. split; [reflexivity|].
  split; [rewrite !search_filter_matches; apply filter_idem|].
  split; [apply search_filter_matches|].
  split; [intros f; rewrite search_filter_matches, filter_In; reflexivity|].
  split; [|repeat split].
  unfold search_filter. now rewrite !lower_strip, lower_idem.
Qed.

(** ** C8: activating a playlist *)

(** A stored playlist named like the selector's placeholder cannot be
    activated: [_apply_selected_playlist] takes [(None)] for "no playlist"
    and returns at once.  Here the playlist [(None)] has just been created
    (it is empty) while the folder's three files are loaded; choosing it in
    the selector leaves the three files in the catalog. *)
Definition demo_placeholder_playlist : State :=
  run demo_env 8 [SelectFolder "/memes"; PlaylistNew (Some "(None)")] demo_init.

Lemma placeholder_playlist_not_activated :
  let s := demo_placeholder_playlist in
  let s' := state_of (step demo_env 8 (PickPlaylist "(None)") s) in
  playlists s !! "(None)" = Some [] /\
  files s' = ["/memes/a.png"; "/memes/b.mp4"; "/memes/c.jpg"] /\
  files s' <> List.filter (path_exists demo_env) (default [] (playlists s !! "(None)")).
Proof. vm_compute. repeat split. discriminate. Qed.

(** C8, as the code has it.  For a stored playlist whose name is neither empty nor the
    placeholder [(None)], [_apply_selected_playlist] makes the catalog
    [files] exactly the stored paths that exist on disk, in stored order; the
    filtered view is that catalog seen through the search box (the catalog
    itself when the box is empty); the stored playlists and the playlist
    document on disk are not touched and still list the missing paths. *)
Theorem playlist_activation (env : Env) (s : State) (name : string) (stored : list string) :
  current_playlist s = name ->
  playlists s !! name = Some stored ->
  name <> "" ->
  name <> NO_PLAYLIST ->
  let s' := _apply_selected_playlist env s in
  files s' = List.filter (path_exists env) stored /\
  (forall p, In p (files s') <-> In p stored /\ path_exists env p = true) /\
  filtered_files s' = search_filter (search_var s) (files s') /\
  (Py.strip (search_var s) = "" -> filtered_files s' = files s') /\
  playlists s' = playlists s /\
  playlists s' !! name = Some stored /\
  playlists_file s' = playlists_file s.
Proof.
  intros Hcur Hstored Hne Hnp. unfold _apply_selected_playlist.
  rewrite Hcur, Hstored.
  assert (Hsel : no_playlist_chosen name = false).
  { unfold no_playlist_chosen. destruct name as [|c t]; [congruence|].
    apply String.eqb_neq. exact Hnp. }
  rewrite Hsel. cbn.
  split; [reflexivity|]. split; [intros p; apply filter_In|].
  split; [reflexivity|]. split; [|repeat split; assumption].
  intros Hblank. unfold search_filter. rewrite Hblank. reflexivity.
Qed.

(** Scenario: the playlist document on disk holds "faves" with a file that is
    there and one that is gone; the player loads it at start-up. *)
Definition demo_faves : State :=
  init demo_env (Some (<["faves" := ["/memes/a.png"; "/memes/gone.png"]]> ∅)).

Lemma playlist_activation_witness :
  let s' := _apply_selected_playlist demo_env demo_faves in
  files s' = ["/memes/a.png"] /\
  (forall p, In p (files s') <->
             In p ["/memes/a.png"; "/memes/gone.png"] /\ path_exists demo_env p = true) /\
  filtered_files s' = search_filter "" (files s') /\
  (Py.strip "" = "" -> filtered_files s' = files s') /\
  playlists s' = playlists demo_faves /\
  playlists s' !! "faves" = Some ["/memes/a.png"; "/memes/gone.png"] /\
  playlists_file s' = playlists_file demo_faves.
Proof.
  apply (playlist_activation demo_env demo_faves "faves" ["/memes/a.png"; "/memes/gone.png"]).
  - reflexivity.
  - reflexivity.
  - discriminate.
  - discriminate.
Defined.

(** ** C9: the loop-videos flag *)

(** The folder is loaded, shuffle is off, the interval is 30 seconds, the
    loop-videos box is ticked; Start shows [a.png] and Next moves to the clip
    [b.mp4], of 3.2 seconds. *)
Definition demo_looping : State :=
  run demo_env 8
    [SelectFolder "/memes"; SetShuffle false; SetInterval 30; SetLoopVideos true;
     Start; PlayNext]
    demo_init.

(** C9, on the code.  With the loop-videos flag set the countdown of a video
    is armed for the clip's own three seconds, not for the interval of 30.
    When it is over, with no user action in between, the tick calls
    [play_next]: the player stops the clip and shows the next file, it does
    not play the clip again. *)
Example loop_videos_advances_after_clip :
  loop_videos demo_looping = true /\
  current_index demo_looping = Some 1 /\
  image_panel demo_looping = VideoSurface "/memes/b.mp4" /\
  vlc_state demo_looping = VlcPlaying "/memes/b.mp4" /\
  progress_maximum demo_looping = 3 /\
  _countdown_seconds_left demo_looping = 2 /\
  current_index (ticks demo_env 8 2 demo_looping) = Some 1 /\
  current_index (ticks demo_env 8 3 demo_looping) = Some 2 /\
  image_panel (ticks demo_env 8 3 demo_looping) = Picture "/memes/c.jpg" /\
  vlc_state (ticks demo_env 8 3 demo_looping) = VlcStopped "/memes/b.mp4".
Proof. vm_compute. repeat split. Qed.

(** ** C10: paused implies running *)

Lemma init_flags env doc : flags (init env doc) = (false, false).
Proof. unfold init, _load_playlists. now rewrite _refresh_playlist_combo_flags. Qed.

(** C10. Whatever happens to the window from start-up on (the five playback
    commands, and also every other user action and every firing of a
    delayed callback, with calls that end in an exception included), a
    paused player is a running one.  The same holds from any object that
    satisfies it.  [toggle_pause] leaves a player that is not running as it
    is, [stop] clears both flags, and [start] on a non-empty view sets
    running and clears paused. *)
Theorem paused_implies_running (env : Env) (limit : nat) (ops : list Op)
    (doc : option (gmap string (list string))) (s : State) :
  (is_paused (run env limit ops (init env doc)) = true ->
   is_running (run env limit ops (init env doc)) = true) /\
  ((is_paused s = true -> is_running s = true) ->
   is_paused (run env limit ops s) = true -> is_running (run env limit ops s) = true) /\
  toggle_pause env (set_is_running false s) = set_is_running false s /\
  is_running (stop s) = false /\
  is_paused (stop s) = false /\
  (filtered_files s <> [] ->
   is_running (state_of (start env limit s)) = true /\
   is_paused (state_of (start env limit s)) = false).
Proof.
  split.
  { apply run_flags. pose proof (init_flags env doc) as E.
    unfold flags in E. injection E as _ ->. discriminate. }
  split; [apply run_flags|].
  split; [reflexivity|].
  split; [|split; [|apply start_flags]].
  - unfold stop, _stop_video, _cancel_timers. cbn.
    destruct (_after_id s); cbn;
      match goal with |- context [if ?b then _ else _] => destruct b end; reflexivity.
  - unfold stop, _stop_video, _cancel_timers. cbn.
    destruct (_after_id s); cbn;
      match goal with |- context [if ?b then _ else _] => destruct b end; reflexivity.
Qed.

(** The folder is loaded, Start and then Pause/Resume are pressed. *)
Lemma paused_implies_running_witness :
  is_paused (run demo_env 8 [SelectFolder "/memes"; Start; TogglePause] (init demo_env None)) = true /\
  is_running (run demo_env 8 [SelectFolder "/memes"; Start; TogglePause] (init demo_env None)) = true.
Proof.
  split; [reflexivity|].
  apply (proj1 (paused_implies_running demo_env 8
                  [SelectFolder "/memes"; Start; TogglePause] None demo_init)).
  reflexivity.
Defined.

(** * The first player *)


(** What the sequencer of the first player decides on. *)
Definition basic_settings (s : Basic.State) :=
  (Basic.folder s, Basic.files s, Basic.is_running s, Basic.is_paused s,
   Basic.shuffle s, Basic.interval_seconds s).

Ltac basic_cases :=
  repeat match goal with
         | |- context [if ?b then _ else _] =>
             match type of b with bool => destruct b end
         | |- context [match ?o with Some _ => _ | None => _ end] =>
             match type of o with option _ => destruct o end
         end.

Lemma basic__cancel_timers_keeps s :
  basic_settings (Basic._cancel_timers s) = basic_settings s /\
  Basic.current_index (Basic._cancel_timers s) = Basic.current_index s.
Proof. unfold Basic._cancel_timers. destruct (Basic._after_id s); split; reflexivity. Qed.

Lemma basic_schedule_next_keeps s :
  basic_settings (Basic.schedule_next s) = basic_settings s /\
  Basic.current_index (Basic.schedule_next s) = Basic.current_index s.
Proof.
  unfold Basic.schedule_next.
  destruct (Basic.is_running s && negb (Basic.is_paused s)); split; reflexivity.
Qed.

Lemma basic__stop_video_keeps s :
  basic_settings (Basic._stop_video s) = basic_settings s /\
  Basic.current_index (Basic._stop_video s) = Basic.current_index s.
Proof.
  unfold Basic._stop_video. destruct (Basic.vlc_player s); cbn;
    destruct (Basic._video_stop_timer s); split; reflexivity.
Qed.

Lemma basic__play_current_keeps env s :
  basic_settings (Basic.state_of (Basic._play_current env s)) = basic_settings s /\
  Basic.current_index (Basic.state_of (Basic._play_current env s)) = Basic.current_index s.
Proof.
  unfold Basic._play_current.
  destruct (basic__cancel_timers_keeps s) as [Es Ei].
  revert Es Ei. generalize (Basic._cancel_timers s). intros c Es Ei.
  rewrite <- Es, <- Ei. clear Es Ei s.
  destruct (Basic.current_index c) as [idx|] eqn:Hidx; [|split; [reflexivity | exact Hidx]].
  destruct ((idx <? 0) || (len (Basic.files c) <=? idx));
    [split; [reflexivity | exact Hidx]|].
  destruct (Basic.files c !! Z.to_nat idx) as [path|];
    [|split; [reflexivity | exact Hidx]].
  cbn zeta.
  set (s1 := Basic.set_listbox_selection [idx] c).
  assert (H1 : basic_settings s1 = basic_settings c /\
               Basic.current_index s1 = Some idx) by (split; [reflexivity | exact Hidx]).
  clearbody s1. destruct H1 as [<- <-]. clear Hidx.
  assert (Sched : forall x, basic_settings x = basic_settings s1 ->
                            Basic.current_index x = Basic.current_index s1 ->
                            basic_settings (Basic.schedule_next x) = basic_settings s1 /\
                            Basic.current_index (Basic.schedule_next x) = Basic.current_index s1).
  { intros x Ex Ei. destruct (basic_schedule_next_keeps x) as [-> ->]. now split. }
  destruct (mem _ Basic.IMAGE_EXTS).
  { cbn [Basic.state_of]. apply Sched.
    - unfold Basic._show_image. destruct (image_opens env path); cbn;
        apply (basic__stop_video_keeps s1).
    - unfold Basic._show_image. destruct (image_opens env path); cbn;
        apply (basic__stop_video_keeps s1). }
  destruct (mem _ Basic.VIDEO_EXTS).
  2:{ cbn [Basic.state_of]. apply Sched; reflexivity. }
  destruct (negb (VLC_AVAILABLE env)).
  { cbn [Basic.state_of]. apply Sched; cbn; apply (basic__stop_video_keeps s1). }
  unfold Basic._play_video. cbn.
  destruct (Basic.vlc_player s1); cbn.
  - destruct (video_opens env path); cbn; [apply Sched; reflexivity | split; reflexivity].
  - apply Sched; reflexivity.
Qed.

(** C1 on the first player: no interval is involved, the call returns or a
    VLC call raises, and the index has moved either way. *)
Lemma basic_sequential_next_prev (env : Env) (s : Basic.State) :
  Basic.files s <> [] ->
  Basic.shuffle s = false ->
  Basic.current_index (Basic.state_of (Basic.play_next env s)) =
    Some (match Basic.current_index s with
          | None => 0
          | Some i => (i + 1) mod len (Basic.files s)
          end) /\
  Basic.current_index (Basic.state_of (Basic.play_prev env s)) =
    Some (match Basic.current_index s with
          | None => 0
          | Some i => (i - 1 + len (Basic.files s)) mod len (Basic.files s)
          end).
Proof.
  intros Hne Hseq. unfold Basic.play_next, Basic.play_prev.
  rewrite (is_empty_false _ Hne), Hseq. cbn.
  destruct (basic__play_current_keeps env (Basic.step_forward s)) as [_ ->].
  destruct (basic__play_current_keeps env (Basic.step_backward s)) as [_ ->].
  unfold Basic.step_forward, Basic.step_backward.
  destruct (Basic.current_index s) as [i|]; cbn; [|split; reflexivity].
  split; [reflexivity|]. f_equal.
  replace (i - 1 + len (Basic.files s)) with (i - 1 + 1 * len (Basic.files s)) by lia.
  now rewrite Z_mod_plus_full.
Qed.

(** C5 on the first player. *)
Lemma basic_shuffle_prev_is_next (env : Env) (s : Basic.State) :
  Basic.shuffle s = true ->
  Basic.play_prev env s = Basic.play_next env s /\
  (Basic.files s <> [] ->
   Basic.current_index (Basic.state_of (Basic.play_next env s)) =
     Some (randrange env (Basic.draws s) (len (Basic.files s)))).
Proof.
  intros Hsh. unfold Basic.play_prev, Basic.play_next. rewrite Hsh.
  split; [reflexivity|]. intros Hne. rewrite (is_empty_false _ Hne). cbn.
  now destruct (basic__play_current_keeps env (Basic.pick_random env s)) as [_ ->].
Qed.

Lemma basic_pause_facts env s :
  Basic.is_running s = true -> Basic.is_paused s = false ->
  (Basic.pending s = [] \/
   exists t, Basic.pending s = [t] /\ Basic._after_id s = Some (tid t)) ->
  let p := Basic.toggle_pause env s in
  Basic.is_running p = true /\ Basic.is_paused p = true /\
  Basic.pending p = [] /\ Basic._after_id p = None /\
  Basic.after_counter p = Basic.after_counter s.
Proof.
  intros Hrun Hnp Hok. cbn zeta.
  assert (Hc : let c := Basic._cancel_timers (Basic.set_is_paused true s) in
               Basic.pending c = [] /\ Basic._after_id c = None /\
               Basic.is_running c = true /\ Basic.is_paused c = true /\
               Basic.after_counter c = Basic.after_counter s).
  { unfold Basic._cancel_timers, Basic.after_cancel. cbn.
    destruct Hok as [Hnil | (t & Ht & Hid)].
    - destruct (Basic._after_id s) eqn:E; cbn; rewrite ?Hnil; repeat split; trivial.
    - rewrite Hid. cbn. rewrite Ht. cbn.
      rewrite decide_False by (intros H; now apply H). repeat split; trivial. }
  unfold Basic.toggle_pause. rewrite Hrun, Hnp. cbn [negb].
  cbn zeta in Hc. revert Hc. generalize (Basic._cancel_timers (Basic.set_is_paused true s)).
  intros c (Hp & Hid & Hr & Hpa & Hcnt).
  destruct (Basic.vlc_player c && VLC_AVAILABLE env); cbn; repeat split; assumption.
Qed.

Lemma basic_resume_facts env q :
  Basic.is_running q = true -> Basic.is_paused q = true ->
  Basic.pending q = [] -> Basic._after_id q = None ->
  let r := Basic.toggle_pause env q in
  Basic.is_running r = true /\ Basic.is_paused r = false /\
  Basic.pending r = [{| tid := Basic.after_counter q;
                        delay_ms := Basic.interval_seconds q * 1000;
                        callback := CbPlayNext |}].
Proof.
  intros Q1 Q2 Q3 Q4. cbn zeta. unfold Basic.toggle_pause. rewrite Q1, Q2. cbn [negb].
  cbn. rewrite Q4. unfold Basic.after. cbn. rewrite Q3.
  destruct (Basic.vlc_player q && VLC_AVAILABLE env); repeat split; assumption.
Qed.

(** C3 on the first player: the same [toggle_pause]. *)
Lemma basic_pause_discards_resume_rearms (env : Env) (s : Basic.State) (z : Z) :
  Basic.is_running s = true ->
  Basic.is_paused s = false ->
  (Basic.pending s = [] \/
   exists t, Basic.pending s = [t] /\ Basic._after_id s = Some (tid t)) ->
  let p := Basic.toggle_pause env s in
  let r := Basic.toggle_pause env (Basic.set_interval_seconds z p) in
  (Basic.is_paused p = true /\ Basic.pending p = [] /\ Basic._after_id p = None) /\
  (Basic.is_paused r = false /\
   Basic.pending r =
     [{| tid := Basic.after_counter s; delay_ms := z * 1000; callback := CbPlayNext |}]).
Proof.
  intros Hrun Hnp Hok. cbn zeta.
  destruct (basic_pause_facts env s Hrun Hnp Hok) as (P1 & P2 & P3 & P4 & P5).
  split; [repeat split; assumption|].
  destruct (basic_resume_facts env (Basic.set_interval_seconds z (Basic.toggle_pause env s)))
    as (_ & R2 & R3); try assumption.
  cbn in R3. rewrite P5 in R3. split; assumption.
Qed.

Lemma basic_settings_flags s s' :
  basic_settings s' = basic_settings s ->
  Basic.is_running s' = Basic.is_running s /\ Basic.is_paused s' = Basic.is_paused s.
Proof. unfold basic_settings. intros E. split; congruence. Qed.

Lemma basic_play_next_keeps env s :
  basic_settings (Basic.state_of (Basic.play_next env s)) = basic_settings s /\
  basic_settings (Basic.state_of (Basic.play_prev env s)) = basic_settings s.
Proof.
  unfold Basic.play_next, Basic.play_prev.
  destruct (is_empty (Basic.files s)); [split; reflexivity|].
  split.
  - destruct (basic__play_current_keeps env
                (if Basic.shuffle s then Basic.pick_random env s else Basic.step_forward s))
      as [-> _].
    unfold Basic.pick_random, Basic.step_forward.
    destruct (Basic.shuffle s), (Basic.current_index s); reflexivity.
  - destruct (basic__play_current_keeps env
                (if Basic.shuffle s then Basic.pick_random env s else Basic.step_backward s))
      as [-> _].
    unfold Basic.pick_random, Basic.step_backward.
    destruct (Basic.shuffle s), (Basic.current_index s); reflexivity.
Qed.

Lemma basic_step_flags env o s :
  (Basic.is_paused s = true -> Basic.is_running s = true) ->
  Basic.is_paused (Basic.state_of (Basic.step env o s)) = true ->
  Basic.is_running (Basic.state_of (Basic.step env o s)) = true.
Proof.
  intros Hinv.
  assert (Keep : forall s', basic_settings s' = basic_settings s ->
                            Basic.is_paused s' = true -> Basic.is_running s' = true).
  { intros s' E. destruct (basic_settings_flags _ _ E) as [-> ->]. exact Hinv. }
  destruct o; cbn [Basic.step Basic.state_of].
  - unfold Basic.start.
    destruct (negb (truthy (Basic.folder s)) || is_empty (Basic.files s)); [exact Hinv|].
    cbn zeta.
    match goal with
    | |- context [if ?b then Basic.Raised BackendError ?x else _] =>
        destruct b; [apply Keep; destruct (negb (VLC_AVAILABLE env) && _); reflexivity|]
    end.
    match goal with
    | |- context [Basic._play_current env ?x] =>
        destruct (basic__play_current_keeps env x) as [E _];
        apply basic_settings_flags in E as [-> ->]
    end.
    intros _.
    repeat match goal with
           | |- context [if ?b then _ else _] =>
               match type of b with bool => destruct b end
           end; cbn; destruct (Basic.current_index s); reflexivity.
  - unfold Basic.stop, Basic._stop_video, Basic._cancel_timers. cbn.
    destruct (Basic._after_id s); cbn; destruct (Basic.vlc_player s); cbn;
      destruct (Basic._video_stop_timer s); cbn; discriminate.
  - unfold Basic.toggle_pause.
    destruct (Basic.is_running s) eqn:Hr; cbn [negb]; [|rewrite Hr; exact Hinv].
    destruct (Basic.is_paused s) eqn:Hp.
    + cbn. destruct (Basic._after_id s); unfold Basic.after; cbn;
        destruct (Basic.vlc_player s && VLC_AVAILABLE env); cbn; discriminate.
    + intros _. unfold Basic._cancel_timers. cbn.
      destruct (Basic._after_id s); cbn;
        destruct (Basic.vlc_player s && VLC_AVAILABLE env); cbn; exact Hr.
  - apply Keep, basic_play_next_keeps.
  - apply Keep, basic_play_next_keeps.
  - apply Keep. destruct (Basic.rows_exist sel s); reflexivity.
  - unfold Basic._on_list_double. destruct (Basic.listbox_selection s); [exact Hinv|].
    apply Keep.
    match goal with
    | |- context [Basic._play_current env ?x] =>
        destruct (basic__play_current_keeps env x) as [-> _]
    end. reflexivity.
  - unfold Basic.select_folder. destruct choice; exact Hinv.
  - exact Hinv.
  - exact Hinv.
  - unfold Basic.fire. destruct (List.find _ _); [|exact Hinv].
    destruct (basic_play_next_keeps env (Basic.after_cancel id s)) as [E _].
    apply basic_settings_flags in E as [-> ->]. exact Hinv.
  - unfold Basic.video_timer_fires.
    destruct (Basic._video_stop_timer s) eqn:E; [|exact Hinv].
    destruct (basic__stop_video_keeps s) as [Es _].
    apply basic_settings_flags in Es as [-> ->]. exact Hinv.
Qed.

(** C10 on the first player. *)
Lemma basic_paused_implies_running (env : Env) (ops : list Basic.Op) :
  Basic.is_paused (Basic.run env ops Basic.init) = true ->
  Basic.is_running (Basic.run env ops Basic.init) = true.
Proof.
  assert (G : forall ops s, (Basic.is_paused s = true -> Basic.is_running s = true) ->
                            Basic.is_paused (Basic.run env ops s) = true ->
                            Basic.is_running (Basic.run env ops s) = true).
  { clear ops. induction ops as [|o ops IH]; intros s Hinv; [exact Hinv|].
    cbn [Basic.run]. apply IH. now apply basic_step_flags. }
  apply G. discriminate.
Qed.
